(** * pspdecrypt: the Python binding layer (pspdecrypt_python.cpp)

    A shallow embedding of the functions the module exports and of the
    state they touch, over an interface for the C library underneath
    (libkirk, PrxDecrypter, pspdecrypt_lib), whose code is not part of the
    sources at hand.  [decrypt_prx_file], which reads a file and hands its
    bytes to [decrypt_prx], comes last, over a file system and an
    allocator.  Machine integers are [Z] with the conversions of the C++
    code written out; a call threads a [world] (the two initialisation
    flags and a trace of library calls, output buffers and prints) and ends
    in a value, an exception or undefined behaviour. *)

From Stdlib Require Import ZArith String Bool Lia List.
From Stdlib.Strings Require Import Byte.
Import ListNotations.
Local Open Scope Z_scope.

Set Implicit Arguments.

(** ** Machine integers *)

Module Machine.

Definition two32 : Z := 2 ^ 32.
Definition two31 : Z := 2 ^ 31.

(** Conversion to [u32] (and truncation of a [size_t] to [u32]). *)
Definition to_u32 (z : Z) : Z := z mod two32.

(** Conversion to [int]. *)
Definition to_int (z : Z) : Z := (z + two31) mod two32 - two31.

(** The comparison [i == u] of an [int] with a [u32]: the [int] side is
    converted to unsigned first. *)
Definition int_eq_u32 (i u : Z) : bool := to_u32 i =? u.

End Machine.
Import Machine.

(** ** Data *)

Definition bytes := list byte.

(** [std::vector<u8> v(n)]: [n] zero bytes. *)
Definition zeros (n : Z) : bytes := repeat x00 (Z.to_nat n).

(** Modelled from the spec: the header size [PSP_HEADER_SIZE], a constant
    declared in a header file that is not among the sources; its value is
    the one the binding's own error message gives, 0x150 bytes. *)
Definition PSP_HEADER_SIZE : Z := 0x150.

(** The dictionary [get_prx_info] builds. *)
Record prx_info := {
  tag : Z;
  elf_size : Z;
  psp_size : Z;
  comp_size : Z;
  is_compressed : bool
}.

(** The exceptions the binding throws, one constructor per message. *)
Inductive error :=
| TooSmall                      (* "Input data is too small (< 0x150 bytes)" *)
| SecureIdLength                (* "Secure ID must be exactly 16 bytes" *)
| PrxDecryptionFailed           (* "PRX decryption failed" *)
| Ipl1Failed                    (* "IPL stage 1 decryption failed" *)
| Ipl2Failed                    (* "IPL stage 2 linearization failed" *)
| Ipl3Failed                    (* "IPL stage 3 decryption failed" *)
| NotCompressed                 (* "Input data is not compressed" *)
| DecompressionFailed (log : string)  (* "Decompression failed: " + log *)
| SubstrOutOfRange              (* std::out_of_range of log_str.substr(1) *)
| BytesNotAllocated.            (* py::bytes(p, n) with n negative: pybind11 throws
                                   "Could not allocate bytes object!" *)

(** What lies outside defined behaviour. *)
Inductive fault :=
| BufferOverrun   (* a routine wrote past the end of the buffer it was given *)
| BadLength.      (* py::bytes(p, n) with n beyond the buffer: a read past its end *)

Inductive outcome (A : Type) :=
| Returned (a : A)
| Thrown (e : error)
| Undefined (f : fault).
Arguments Returned {A} a.
Arguments Thrown {A} e.
Arguments Undefined {A} f.

(** ** The library underneath *)

(** What [pspDecompress] leaves behind: its return value, its input buffer
    (the parameter is not const), the bytes it wrote from the start of the
    output buffer, and what it appended to the log string. *)
Record decompressed := {
  dec_ret : Z;
  dec_inbuf : bytes;
  dec_written : bytes;
  dec_log : string
}.

(** The routines the binding calls.  A routine that fills a caller's buffer
    gives the bytes it wrote from the start of that buffer. *)
Record PspLib := {
  pspGetTagVal : bytes -> Z;
  pspGetElfSize : bytes -> Z;
  pspGetPspSize : bytes -> Z;
  pspGetCompSize : bytes -> Z;
  pspIsCompressed : bytes -> Z;
  pspDecryptPRX : bytes -> Z -> option bytes -> bool -> Z * bytes;
  pspDecompress : bytes -> Z -> Z -> decompressed;
  pspDecryptIPL1 : bytes -> Z -> Z * bytes * string;
  pspLinearizeIPL2 : bytes -> Z -> Z * bytes * Z;
  pspDecryptIPL3 : bytes -> Z -> Z * bytes
}.

(** ** State and effects *)

Inductive libcall :=
| CKirkInit
| CGetTagVal | CGetElfSize | CGetPspSize | CGetCompSize
| CIsCompressed
| CDecryptPRX (seed : option bytes) (verbose : bool)
| CDecompress (outcapacity : Z)
| CDecryptIPL1
| CLinearizeIPL2
| CDecryptIPL3.

Inductive event :=
| Call (c : libcall)
| AllocOutput (n : Z)
| Print (line : string).

(** The two function-local statics named [kirk_initialized] (one in
    [decrypt_prx], one in [decrypt_ipl1]) and the trace of what happened. *)
Record world := {
  prx_kirk_initialized : bool;
  ipl1_kirk_initialized : bool;
  trace : list event
}.

Definition initial_world : world :=
  {| prx_kirk_initialized := false; ipl1_kirk_initialized := false; trace := [] |}.

Definition M (A : Type) : Type := world -> world * outcome A.

Definition ret {A} (a : A) : M A := fun w => (w, Returned a).
Definition throw {A} (e : error) : M A := fun w => (w, Thrown e).
Definition undefined {A} (f : fault) : M A := fun w => (w, Undefined f).

Definition bind {A B} (m : M A) (k : A -> M B) : M B :=
  fun w =>
    match m w with
    | (w', Returned a) => k a w'
    | (w', Thrown e) => (w', Thrown e)
    | (w', Undefined f) => (w', Undefined f)
    end.

Declare Scope bind_scope.
Delimit Scope bind_scope with M.
Notation "x <- m ;; k" := (bind m (fun x => k))
  (at level 61, m at next level, right associativity) : bind_scope.
Notation "m ;; k" := (bind m (fun _ => k))
  (at level 61, right associativity) : bind_scope.
Local Open Scope bind_scope.

(** The world with [evs] added at the end of its trace. *)
Definition record_events (evs : list event) (w : world) : world :=
  {| prx_kirk_initialized := prx_kirk_initialized w;
     ipl1_kirk_initialized := ipl1_kirk_initialized w;
     trace := trace w ++ evs |}.

Definition emit (e : event) : M unit :=
  fun w => (record_events [e] w, Returned tt).

(** [std::vector<u8> output(n)]. *)
Definition alloc (n : Z) : M bytes := emit (AllocOutput n) ;; ret (zeros n).

(** A routine writes [written] from the start of [buf]. *)
Definition store (buf written : bytes) : M bytes :=
  if (length written <=? length buf)%nat
  then ret (written ++ skipn (length written) buf)
  else undefined BufferOverrun.

(** [py::bytes(buf.data(), n)]: a copy of [n] bytes from the start of the
    buffer.  A negative [n] makes the constructor throw.  The code never
    compares [n] with the size of the buffer: the comparison below is not a
    test the code makes, it tells a copy from within the buffer from a read
    past its end, which is undefined behaviour. *)
Definition py_bytes (buf : bytes) (n : Z) : M bytes :=
  if n <? 0 then throw BytesNotAllocated
  else if n <=? Z.of_nat (length buf)
       then ret (firstn (Z.to_nat n) buf)
       else undefined BadLength.

(** [s.substr(1)]: throws when [s] is empty. *)
Definition substr1 (s : string) : M string :=
  match s with
  | EmptyString => throw SubstrOutOfRange
  | String _ rest => ret rest
  end.

(** [py::print(label, text)]. *)
Definition py_print (label text : string) : M unit :=
  emit (Print (label ++ " " ++ text)%string).

Definition nonempty (s : string) : bool :=
  match s with EmptyString => false | _ => true end.

(** ** The binding *)

Section Binding.

Variable L : PspLib.

Definition set_prx_kirk_initialized (w : world) : world :=
  {| prx_kirk_initialized := true;
     ipl1_kirk_initialized := ipl1_kirk_initialized w;
     trace := trace w |}.

Definition set_ipl1_kirk_initialized (w : world) : world :=
  {| prx_kirk_initialized := prx_kirk_initialized w;
     ipl1_kirk_initialized := true;
     trace := trace w |}.

(** A call of a library routine, recorded in the trace. *)
Definition call {A} (c : libcall) (v : A) : M A := emit (Call c) ;; ret v.

(** [if (!kirk_initialized) { kirk_init(); kirk_initialized = true; }]
    on the static of [decrypt_prx]. *)
Definition kirk_once_prx : M unit :=
  fun w =>
    if prx_kirk_initialized w then (w, Returned tt)
    else (call CKirkInit tt ;; fun w' => (set_prx_kirk_initialized w', Returned tt)) w.

(** The same lines on the static of [decrypt_ipl1]. *)
Definition kirk_once_ipl1 : M unit :=
  fun w =>
    if ipl1_kirk_initialized w then (w, Returned tt)
    else (call CKirkInit tt ;; fun w' => (set_ipl1_kirk_initialized w', Returned tt)) w.

(** [if (verbose) py::print(label, log_str.substr(1))]. *)
Definition print_log_if (verbose : bool) (label log : string) : M unit :=
  if verbose then (t <- substr1 log ;; py_print label t) else ret tt.

(** [if (verbose && !log_str.empty()) py::print(label, log_str.substr(1))]. *)
Definition print_nonempty_log_if (verbose : bool) (label log : string) : M unit :=
  if verbose && nonempty log then (t <- substr1 log ;; py_print label t) else ret tt.

(** Lines 24 to 91. *)
Definition decrypt_prx (data : bytes) (secure_id_obj : option bytes)
           (verbose : bool) : M bytes :=
  kirk_once_prx ;;                                             (* 26-30 *)
  let input_size := to_u32 (Z.of_nat (length data)) in         (* 35 *)
  if input_size <? PSP_HEADER_SIZE then throw TooSmall else    (* 37-39 *)
  secure_id_ptr <-                                             (* 42-53 *)
    match secure_id_obj with
    | None => ret None
    | Some secure_id_str =>
        if (length secure_id_str =? 16)%nat
        then ret (Some secure_id_str)
        else throw SecureIdLength
    end ;;
  psp_size <- call CGetPspSize (to_u32 (pspGetPspSize L data)) ;;   (* 56 *)
  elf_size <- call CGetElfSize (to_u32 (pspGetElfSize L data)) ;;   (* 57 *)
  let output_capacity := Z.max psp_size elf_size in                 (* 58 *)
  let output_capacity := to_u32 (to_u32 (output_capacity + 15) / 16 * 16) in  (* 59 *)
  output_buffer <- alloc output_capacity ;;                         (* 62 *)
  r <- call (CDecryptPRX secure_id_ptr verbose)                     (* 65 *)
            (pspDecryptPRX L data input_size secure_id_ptr verbose) ;;
  output_buffer <- store output_buffer (snd r) ;;
  let output_size := to_int (fst r) in
  if output_size <? 0 then throw PrxDecryptionFailed else           (* 67-69 *)
  compressed <-                                                     (* 72 *)
    (if 4 <=? output_size
     then c <- call CIsCompressed (pspIsCompressed L output_buffer) ;;
          ret (negb (c =? 0))
     else ret false) ;;
  if compressed then
    temp_buffer <- alloc elf_size ;;                                (* 74 *)
    d <- call (CDecompress elf_size)                                (* 75-76 *)
              (pspDecompress L output_buffer (to_u32 output_size) elf_size) ;;
    temp_buffer <- store temp_buffer (dec_written d) ;;
    let output_buffer := dec_inbuf d in
    let decompressed_size := to_int (dec_ret d) in
    if int_eq_u32 decompressed_size elf_size then                   (* 78 *)
      print_log_if verbose "Decompression successful:" (dec_log d) ;;  (* 81-83 *)
      py_bytes temp_buffer decompressed_size                        (* 79-80, 90 *)
    else
      print_log_if verbose "Decompression failed:" (dec_log d) ;;   (* 84-86 *)
      py_bytes output_buffer output_size                            (* 90 *)
  else
    py_bytes output_buffer output_size.                             (* 90 *)

(** Lines 126 to 142. *)
Definition get_prx_info (data : bytes) : M prx_info :=
  if Z.of_nat (length data) <? PSP_HEADER_SIZE then throw TooSmall else
  t <- call CGetTagVal (to_u32 (pspGetTagVal L data)) ;;
  e <- call CGetElfSize (to_u32 (pspGetElfSize L data)) ;;
  p <- call CGetPspSize (to_u32 (pspGetPspSize L data)) ;;
  c <- call CGetCompSize (to_u32 (pspGetCompSize L data)) ;;
  z <- call CIsCompressed (pspIsCompressed L data) ;;
  ret {| tag := t; elf_size := e; psp_size := p; comp_size := c;
         is_compressed := negb (z =? 0) |}.

(** Lines 145 to 171. *)
Definition decrypt_ipl1 (data : bytes) (verbose : bool) : M bytes :=
  kirk_once_ipl1 ;;
  let input_size := to_u32 (Z.of_nat (length data)) in
  output_buffer <- alloc input_size ;;
  r <- call CDecryptIPL1 (pspDecryptIPL1 L data input_size) ;;
  let '(ret_size, written, log_str) := r in
  output_buffer <- store output_buffer written ;;
  let output_size := to_int ret_size in
  if output_size <=? 0 then throw Ipl1Failed else
  print_nonempty_log_if verbose "IPL1 decryption:" log_str ;;
  py_bytes output_buffer output_size.

(** Lines 174 to 190. *)
Definition linearize_ipl2 (data : bytes) : M (bytes * Z) :=
  let input_size := to_u32 (Z.of_nat (length data)) in
  output_buffer <- alloc input_size ;;
  r <- call CLinearizeIPL2 (pspLinearizeIPL2 L data input_size) ;;
  let '(ret_size, written, start_addr) := r in
  output_buffer <- store output_buffer written ;;
  let output_size := to_int ret_size in
  if output_size <=? 0 then throw Ipl2Failed else
  result <- py_bytes output_buffer output_size ;;
  ret (result, to_u32 start_addr).

(** Lines 193 to 207. *)
Definition decrypt_ipl3 (data : bytes) : M bytes :=
  let input_size := to_u32 (Z.of_nat (length data)) in
  output_buffer <- alloc input_size ;;
  r <- call CDecryptIPL3 (pspDecryptIPL3 L data input_size) ;;
  let '(ret_size, written) := r in
  output_buffer <- store output_buffer written ;;
  let output_size := to_int ret_size in
  if output_size <=? 0 then throw Ipl3Failed else
  py_bytes output_buffer output_size.

(** [u32 output_capacity = (max_size > 0) ? max_size : (input_size * 10)]. *)
Definition decompress_capacity (max_size input_size : Z) : Z :=
  if 0 <? max_size then to_u32 max_size else to_u32 (input_size * 10).

(** Lines 210 to 239.  [input_buffer] is the copy of line 215; what the
    decoder does to it is not seen again. *)
Definition decompress (data : bytes) (max_size : Z) (verbose : bool) : M bytes :=
  let input_size := to_u32 (Z.of_nat (length data)) in
  let input_buffer := firstn (Z.to_nat input_size) data in
  c <- call CIsCompressed (pspIsCompressed L input_buffer) ;;
  if c =? 0 then throw NotCompressed else
  let output_capacity := decompress_capacity max_size input_size in
  output_buffer <- alloc output_capacity ;;
  d <- call (CDecompress output_capacity)
            (pspDecompress L input_buffer input_size output_capacity) ;;
  output_buffer <- store output_buffer (dec_written d) ;;
  let output_size := to_int (dec_ret d) in
  if output_size <? 0 then throw (DecompressionFailed (dec_log d)) else
  print_nonempty_log_if verbose "Decompression:" (dec_log d) ;;
  py_bytes output_buffer output_size.

End Binding.

(** ** Sequences of top-level calls *)

Inductive api_call :=
| DecryptPrx (data : bytes) (secure_id : option bytes) (verbose : bool)
| GetPrxInfo (data : bytes)
| DecryptIpl1 (data : bytes) (verbose : bool)
| LinearizeIpl2 (data : bytes)
| DecryptIpl3 (data : bytes)
| Decompress (data : bytes) (max_size : Z) (verbose : bool).

(** The world a call leaves behind, whatever it returns or throws. *)
Definition run_call (L : PspLib) (c : api_call) (w : world) : world :=
  match c with
  | DecryptPrx data sid verbose => fst (decrypt_prx L data sid verbose w)
  | GetPrxInfo data => fst (get_prx_info L data w)
  | DecryptIpl1 data verbose => fst (decrypt_ipl1 L data verbose w)
  | LinearizeIpl2 data => fst (linearize_ipl2 L data w)
  | DecryptIpl3 data => fst (decrypt_ipl3 L data w)
  | Decompress data max_size verbose => fst (decompress L data max_size verbose w)
  end.

Definition run_calls (L : PspLib) (cs : list api_call) (w : world) : world :=
  fold_left (fun w c => run_call L c w) cs w.

Definition is_kirk_init (e : event) : bool :=
  match e with Call CKirkInit => true | _ => false end.

(** How many times [kirk_init] ran. *)
Definition kirk_loads (t : list event) : nat :=
  length (filter is_kirk_init t).

Definition is_decrypt_prx (c : api_call) : bool :=
  match c with DecryptPrx _ _ _ => true | _ => false end.

Definition is_decrypt_ipl1 (c : api_call) : bool :=
  match c with DecryptIpl1 _ _ => true | _ => false end.

(** ** An instance of the library for concrete runs *)

(** Modelled from the spec: the format sniff of the codec dispatcher, whose
    code is not among the sources: "magic-byte sniff only", recognising the
    GZIP magic (1F 8B) and the markers KL4E, KL3E and 2RLZ. *)
Definition magic_sniff (buf : bytes) : Z :=
  match buf with
  | b0 :: b1 :: rest =>
      if Byte.eqb b0 x1f && Byte.eqb b1 x8b then 1
      else match rest with
           | b2 :: b3 :: _ =>
               if Byte.eqb b0 x4b && Byte.eqb b1 x4c && Byte.eqb b2 x34 && Byte.eqb b3 x45
               then 1
               else if Byte.eqb b0 x4b && Byte.eqb b1 x4c && Byte.eqb b2 x33 && Byte.eqb b3 x45
               then 1
               else if Byte.eqb b0 x32 && Byte.eqb b1 x52 && Byte.eqb b2 x4c && Byte.eqb b3 x5a
               then 1
               else 0
           | _ => 0
           end
  | _ => 0
  end.

(** One run of the library, written down: what the header getters read, and
    what each routine answers. *)
Record script := {
  s_tag : Z;
  s_elf_size : Z;
  s_psp_size : Z;
  s_comp_size : Z;
  s_prx : Z * bytes;
  s_decompress : Z * bytes * string;
  s_ipl1 : Z * bytes * string;
  s_ipl2 : Z * bytes * Z;
  s_ipl3 : Z * bytes
}.

(** The library that follows a script: the sniff is [magic_sniff], the
    decoder leaves its input as it found it, and no routine looks at the
    verbosity flag. *)
Definition scripted (s : script) : PspLib :=
  {| pspGetTagVal := fun _ => s_tag s;
     pspGetElfSize := fun _ => s_elf_size s;
     pspGetPspSize := fun _ => s_psp_size s;
     pspGetCompSize := fun _ => s_comp_size s;
     pspIsCompressed := magic_sniff;
     pspDecryptPRX := fun _ _ _ _ => s_prx s;
     pspDecompress := fun inbuf _ _ =>
       {| dec_ret := fst (fst (s_decompress s));
          dec_inbuf := inbuf;
          dec_written := snd (fst (s_decompress s));
          dec_log := snd (s_decompress s) |};
     pspDecryptIPL1 := fun _ _ => s_ipl1 s;
     pspLinearizeIPL2 := fun _ _ => s_ipl2 s;
     pspDecryptIPL3 := fun _ _ => s_ipl3 s |}.

(** A script in which every routine fails. *)
Definition failing_script : script :=
  {| s_tag := 0; s_elf_size := 0; s_psp_size := 0; s_comp_size := 0;
     s_prx := (-1, []);
     s_decompress := (-1, [], ",unknown"%string);
     s_ipl1 := (-1, [], EmptyString);
     s_ipl2 := (-1, [], 0);
     s_ipl3 := (-1, []) |}.

(** A script whose decoder writes three bytes and reports them, the other
    routines failing. *)
Definition gzip_script : script :=
  {| s_tag := 0; s_elf_size := 0; s_psp_size := 0; s_comp_size := 0;
     s_prx := (-1, []);
     s_decompress := (3, [x41; x42; x43], ",gzip"%string);
     s_ipl1 := (-1, [], EmptyString);
     s_ipl2 := (-1, [], 0);
     s_ipl3 := (-1, []) |}.

(** Four bytes that open with the GZIP magic. *)
Definition gzip_input : bytes := [x1f; x8b; x08; x00].

(** A header declaring [psp_size] 16 and [elf_size] 3; the decryption
    gives the four bytes of [gzip_input], the decoder three bytes. *)
Definition compressed_prx_script : script :=
  {| s_tag := 0; s_elf_size := 3; s_psp_size := 16; s_comp_size := 4;
     s_prx := (4, gzip_input);
     s_decompress := (3, [x41; x42; x43], ",gzip"%string);
     s_ipl1 := (-1, [], EmptyString);
     s_ipl2 := (-1, [], 0);
     s_ipl3 := (-1, []) |}.

(** The same header; the decryption gives three bytes that open with the
    GZIP magic. *)
Definition short_payload_script : script :=
  {| s_tag := 0; s_elf_size := 3; s_psp_size := 16; s_comp_size := 3;
     s_prx := (3, [x1f; x8b; x08]);
     s_decompress := (3, [x41; x42; x43], ",gzip"%string);
     s_ipl1 := (-1, [], EmptyString);
     s_ipl2 := (-1, [], 0);
     s_ipl3 := (-1, []) |}.

(** A header declaring [elf_size] 0xFFFFFFF0; the decryption gives the four
    bytes of [gzip_input] and the decoder fails with -16. *)
Definition wrapped_script : script :=
  {| s_tag := 0; s_elf_size := 4294967280; s_psp_size := 16; s_comp_size := 4;
     s_prx := (4, gzip_input);
     s_decompress := (-16, [], ",gzip"%string);
     s_ipl1 := (-1, [], EmptyString);
     s_ipl2 := (-1, [], 0);
     s_ipl3 := (-1, []) |}.

(** A script whose routines all answer 0 and write nothing. *)
Definition zero_script : script :=
  {| s_tag := 0; s_elf_size := 0; s_psp_size := 0; s_comp_size := 0;
     s_prx := (0, []);
     s_decompress := (0, [], ",gzip"%string);
     s_ipl1 := (0, [], EmptyString);
     s_ipl2 := (0, [], 0);
     s_ipl3 := (0, []) |}.

(** The GZIP magic followed by zero bytes, 429,496,730 bytes in all. *)
Definition huge_gzip_input : bytes := [x1f; x8b] ++ repeat x00 (Z.to_nat 429496728).

(** A library whose decoder has five bytes to give: it writes and reports
    them when its capacity allows, and fails with -1 otherwise.  The sniff
    is [magic_sniff]; the other routines fail. *)
Definition five_byte_decoder : PspLib :=
  {| pspGetTagVal := fun _ => 0;
     pspGetElfSize := fun _ => 0;
     pspGetPspSize := fun _ => 0;
     pspGetCompSize := fun _ => 0;
     pspIsCompressed := magic_sniff;
     pspDecryptPRX := fun _ _ _ _ => (-1, []);
     pspDecompress := fun inbuf _ outcapacity =>
       if 5 <=? outcapacity
       then {| dec_ret := 5; dec_inbuf := inbuf;
               dec_written := [x41; x42; x43; x44; x45];
               dec_log := ",gzip"%string |}
       else {| dec_ret := -1; dec_inbuf := inbuf;
               dec_written := [];
               dec_log := ",gzip"%string |};
     pspDecryptIPL1 := fun _ _ => (-1, [], EmptyString);
     pspLinearizeIPL2 := fun _ _ => (-1, [], 0);
     pspDecryptIPL3 := fun _ _ => (-1, []) |}.

(** An input of header size, all zero. *)
Definition blank_header : bytes := repeat x00 336.

(** ** Vocabulary of the statements *)

(** [u32 input_size = input_str.size()]. *)
Definition input_size_of (data : bytes) : Z := to_u32 (Z.of_nat (length data)).

(** The [input_buffer] copy [decompress] hands to the library. *)
Definition decompress_input (data : bytes) : bytes :=
  firstn (Z.to_nat (input_size_of data)) data.

(** The line a guarded print adds to the trace, if any. *)
Definition diagnostics (verbose : bool) (label log : string) : list event :=
  match log with
  | String _ rest => if verbose then [Print (label ++ " " ++ rest)%string] else []
  | EmptyString => []
  end.

(** The world after the initialisation guard of [decrypt_prx]. *)
Definition after_kirk_prx (w : world) : world :=
  if prx_kirk_initialized w then w
  else set_prx_kirk_initialized (record_events [Call CKirkInit] w).

(** The world after the initialisation guard of [decrypt_ipl1]. *)
Definition after_kirk_ipl1 (w : world) : world :=
  if ipl1_kirk_initialized w then w
  else set_ipl1_kirk_initialized (record_events [Call CKirkInit] w).

(** A secure ID argument that passes the length check. *)
Definition secure_id_ok (secure_id_obj : option bytes) : Prop :=
  match secure_id_obj with
  | None => True
  | Some s => length s = 16%nat
  end.

Section PrxVocabulary.

Variable L : PspLib.
Variable data : bytes.

(** [elf_size] and [psp_size] as [decrypt_prx] reads them. *)
Definition prx_elf_size : Z := to_u32 (pspGetElfSize L data).
Definition prx_psp_size : Z := to_u32 (pspGetPspSize L data).

(** [max(psp_size, elf_size)] rounded up to 16, in [u32]. *)
Definition prx_capacity : Z :=
  to_u32 (to_u32 (Z.max prx_psp_size prx_elf_size + 15) / 16 * 16).

Variable seed : option bytes.
Variable verbose : bool.

(** The return value of [pspDecryptPRX], as the [int output_size]. *)
Definition prx_output_size : Z :=
  to_int (fst (pspDecryptPRX L data (input_size_of data) seed verbose)).

(** What [pspDecryptPRX] wrote. *)
Definition prx_written : bytes :=
  snd (pspDecryptPRX L data (input_size_of data) seed verbose).

(** [output_buffer] after the decryption. *)
Definition prx_output_buffer : bytes :=
  prx_written ++ skipn (length prx_written) (zeros prx_capacity).

(** The run of [pspDecompress] on the decrypted buffer. *)
Definition prx_decoded : decompressed :=
  pspDecompress L prx_output_buffer (to_u32 prx_output_size) prx_elf_size.

(** [temp_buffer] after the decompression. *)
Definition prx_temp_buffer : bytes :=
  dec_written prx_decoded ++ skipn (length (dec_written prx_decoded)) (zeros prx_elf_size).

End PrxVocabulary.

(** The calls [get_prx_info] makes on an input of header size or more. *)
Definition header_reads : list event :=
  [Call CGetTagVal; Call CGetElfSize; Call CGetPspSize; Call CGetCompSize;
   Call CIsCompressed].

(** The dictionary [get_prx_info] returns for [data]. *)
Definition info_of (L : PspLib) (data : bytes) : prx_info :=
  {| tag := to_u32 (pspGetTagVal L data);
     elf_size := to_u32 (pspGetElfSize L data);
     psp_size := to_u32 (pspGetPspSize L data);
     comp_size := to_u32 (pspGetCompSize L data);
     is_compressed := negb (pspIsCompressed L data =? 0) |}.

(** An event that loads keys, decrypts, decodes, allocates an output buffer
    or prints. *)
Definition is_effect (e : event) : bool :=
  match e with
  | Call CKirkInit | Call (CDecryptPRX _ _) | Call (CDecompress _)
  | Call CDecryptIPL1 | Call CLinearizeIPL2 | Call CDecryptIPL3 => true
  | Call _ => false
  | AllocOutput _ => true
  | Print _ => true
  end.

(** How many times [kirk_init] has run after the calls [cs], made one
    after the other in a fresh process. *)
Definition loads (L : PspLib) (cs : list api_call) : nat :=
  kirk_loads (trace (run_calls L cs initial_world)).

(** A computation that leaves both statics alone and never calls
    [kirk_init]. *)
Definition quiet {A} (m : M A) : Prop :=
  forall w,
    prx_kirk_initialized (fst (m w)) = prx_kirk_initialized w /\
    ipl1_kirk_initialized (fst (m w)) = ipl1_kirk_initialized w /\
    kirk_loads (trace (fst (m w))) = kirk_loads (trace w).

(** ** What is assumed of the library *)

(** Modelled from the spec: the bound the codec dispatcher, whose code is not
    among the sources, keeps on its output: "each decoder must treat
    [max_output_size] as a hard cap", so a run writes at most [cap] bytes and
    reports either a failure (a negative value) or a length within [cap]. *)
Definition respects_cap (d : decompressed) (cap : Z) : Prop :=
  Z.of_nat (length (dec_written d)) <= cap /\
  (to_int (dec_ret d) < 0 \/ 0 <= to_int (dec_ret d) <= cap).

(** Modelled from the spec: the diagnostic text "is not part of any
    contract"; for [pspDecryptPRX], whose code is not among the sources and
    which is handed the verbosity flag, that is: the flag changes neither
    its return value nor the bytes it writes. *)
Definition verbosity_blind (L : PspLib) : Prop :=
  forall data size seed,
    pspDecryptPRX L data size seed true = pspDecryptPRX L data size seed false.


(** ** [decrypt_prx_file] *)

(** What the C file calls give for a path that opens: the position [ftell]
    reports at the end of the file (negative when it fails), and the bytes
    the file holds, which [fread] delivers from the start. *)
Record file := {
  f_tell : Z;
  f_content : bytes
}.

(** The exceptions of [decrypt_prx_file] itself. *)
Inductive file_error :=
| CouldNotOpen (filename : string)   (* "Could not open file: " + filename *)
| SizeUnknown                        (* "Could not determine file size" *)
| NoMemory                           (* the vector of line 112 cannot be allocated *)
| ShortRead.                         (* "Could not read entire file" *)

(** Lines 94 to 123.  [fs] is the file system: what [fopen] finds at a
    path.  [heap n] tells whether the allocator grants the [n] bytes of
    [std::vector<u8> file_data(file_size)]; when it does not, the
    constructor throws before anything is read.  [fread] is asked for
    [file_size] bytes and delivers what the file holds, up to that many. *)
Definition decrypt_prx_file (L : PspLib) (fs : string -> option file)
           (heap : Z -> bool)
           (filename : string) (secure_id_obj : option bytes) (verbose : bool)
           (w : world) : world * (file_error + outcome bytes) :=
  match fs filename with
  | None => (w, inl (CouldNotOpen filename))                     (* 96-99 *)
  | Some f =>
      let file_size := f_tell f in                               (* 102-104 *)
      if file_size <? 0 then (w, inl SizeUnknown) else           (* 106-109 *)
      if negb (heap file_size) then (w, inl NoMemory) else       (* 112 *)
      let file_data := firstn (Z.to_nat file_size) (f_content f) in  (* 113 *)
      let bytes_read := Z.of_nat (length file_data) in
      if negb (bytes_read =? file_size) then (w, inl ShortRead) else  (* 116-118 *)
      let r := decrypt_prx L file_data secure_id_obj verbose w in    (* 121-122 *)
      (fst r, inr (snd r))
  end.

(** A regular file: [ftell] at its end gives its length. *)
Definition regular_file (content : bytes) : file :=
  {| f_tell := Z.of_nat (length content); f_content := content |}.

(** ** Counting prints *)

Definition is_print (e : event) : bool :=
  match e with Print _ => true | _ => false end.

(** How many lines have been printed. *)
Definition printed (t : list event) : nat := length (filter is_print t).

(** ** More scripts *)

(** A script for the three IPL stages: stage 1 gives three bytes, stage 2
    two bytes and a start address, stage 3 one byte. *)
Definition ipl_script : script :=
  {| s_tag := 0; s_elf_size := 0; s_psp_size := 0; s_comp_size := 0;
     s_prx := (-1, []);
     s_decompress := (-1, [], ",unknown"%string);
     s_ipl1 := (3, [x0a; x0b; x0c], ",ok"%string);
     s_ipl2 := (2, [x0a; x0b], 67108864);
     s_ipl3 := (1, [x0a]) |}.

(** An input of 2^32 zero bytes. *)
Definition four_gib_input : bytes := repeat x00 (Z.to_nat 4294967296).

(** A file system with one file, [gzip_input], at the path "a.prx". *)
Definition one_file_fs (filename : string) : option file :=
  if String.eqb filename "a.prx" then Some (regular_file gzip_input) else None.

(** A header declaring no bytes at all ([psp_size] and [elf_size] 0), and
    a decryption that writes the four bytes of [gzip_input]. *)
Definition overrun_script : script :=
  {| s_tag := 0; s_elf_size := 0; s_psp_size := 0; s_comp_size := 4;
     s_prx := (4, gzip_input);
     s_decompress := (-1, [], ",unknown"%string);
     s_ipl1 := (-1, [], EmptyString);
     s_ipl2 := (-1, [], 0);
     s_ipl3 := (-1, []) |}.

(** The compressed image again, with a decoder that leaves the log empty. *)
Definition silent_decoder_script : script :=
  {| s_tag := 0; s_elf_size := 3; s_psp_size := 16; s_comp_size := 4;
     s_prx := (4, gzip_input);
     s_decompress := (3, [x41; x42; x43], EmptyString);
     s_ipl1 := (-1, [], EmptyString);
     s_ipl2 := (-1, [], 0);
     s_ipl3 := (-1, []) |}.

(** An allocator that grants every request. *)
Definition roomy_heap (n : Z) : bool := true.

(** An allocator that grants up to [limit] bytes. *)
Definition bounded_heap (limit n : Z) : bool := n <=? limit.

(** A special file: [ftell] answers the largest [long], and there is
    nothing to read. *)
Definition endless_file : file :=
  {| f_tell := 9223372036854775807; f_content := [] |}.

(** ** The IPL stages *)

Section StageVocabulary.

Variable L : PspLib.
Variable data : bytes.

(** What the routine of each stage answers, as the [int output_size], and
    what it wrote. *)
Definition ipl1_answer : Z :=
  to_int (fst (fst (pspDecryptIPL1 L data (input_size_of data)))).
Definition ipl1_written : bytes :=
  snd (fst (pspDecryptIPL1 L data (input_size_of data))).
Definition ipl2_answer : Z :=
  to_int (fst (fst (pspLinearizeIPL2 L data (input_size_of data)))).
Definition ipl2_written : bytes :=
  snd (fst (pspLinearizeIPL2 L data (input_size_of data))).
Definition ipl2_start : Z :=
  to_u32 (snd (pspLinearizeIPL2 L data (input_size_of data))).
Definition ipl3_answer : Z :=
  to_int (fst (pspDecryptIPL3 L data (input_size_of data))).
Definition ipl3_written : bytes :=
  snd (pspDecryptIPL3 L data (input_size_of data)).

(** The output buffer of a stage, [input_size] bytes, once its routine has
    written [written] into it. *)
Definition stage_buffer (written : bytes) : bytes :=
  written ++ skipn (length written) (zeros (input_size_of data)).

End StageVocabulary.

(** A stage 1 whose routine reports nine bytes, whatever the input. *)
Definition boastful_script : script :=
  {| s_tag := 0; s_elf_size := 0; s_psp_size := 0; s_comp_size := 0;
     s_prx := (-1, []);
     s_decompress := (-1, [], ",unknown"%string);
     s_ipl1 := (9, [x0a; x0b; x0c], ",ok"%string);
     s_ipl2 := (9, [x0a; x0b], 67108864);
     s_ipl3 := (9, [x0a]) |}.

(** ** Counting calls of the decoder *)

Definition is_decompress_call (e : event) : bool :=
  match e with Call (CDecompress _) => true | _ => false end.

(** How many times [pspDecompress] has been called. *)
Definition decoder_calls (t : list event) : nat :=
  length (filter is_decompress_call t).

(** * Facts *)

(** ** Machine integers *)

Module MachineFacts.

Lemma to_u32_range z : 0 <= to_u32 z < two32.
Proof. unfold to_u32. apply Z.mod_pos_bound. reflexivity. Qed.

Lemma to_u32_small z : 0 <= z < two32 -> to_u32 z = z.
Proof. intros H. unfold to_u32. now apply Z.mod_small. Qed.

Lemma to_u32_le z : 0 <= z -> to_u32 z <= z.
Proof. intros H. unfold to_u32. apply Z.mod_le; [assumption | reflexivity]. Qed.

Lemma to_int_range z : - two31 <= to_int z < two31.
Proof.
  unfold to_int.
  assert (H : 0 <= (z + two31) mod two32 < two32)
    by (apply Z.mod_pos_bound; reflexivity).
  unfold two31, two32 in *. lia.
Qed.

Lemma to_int_small z : - two31 <= z < two31 -> to_int z = z.
Proof.
  intros H. unfold to_int.
  rewrite Z.mod_small; unfold two31, two32 in *; lia.
Qed.

Lemma int_eq_u32_spec i u :
  - two31 <= i < two31 -> 0 <= u < two32 ->
  int_eq_u32 i u = true <-> (i = u \/ i + two32 = u).
Proof.
  intros Hi Hu. unfold int_eq_u32, to_u32. rewrite Z.eqb_eq.
  unfold two31, two32 in *.
  destruct (Z_lt_le_dec i 0) as [Hneg | Hpos].
  - replace (i mod 2 ^ 32) with (i + 2 ^ 32).
    + lia.
    + apply Z.mod_unique with (q := -1); lia.
  - rewrite Z.mod_small by lia. lia.
Qed.

End MachineFacts.
Import MachineFacts.

(** ** Buffers, traces and the monad *)

Lemma zeros_length n : 0 <= n -> Z.of_nat (length (zeros n)) = n.
Proof. intros H. unfold zeros. rewrite repeat_length. lia. Qed.

Lemma record_events_nil w : record_events [] w = w.
Proof. destruct w. unfold record_events. simpl. now rewrite app_nil_r. Qed.

Lemma record_events_app a b w :
  record_events b (record_events a w) = record_events (a ++ b) w.
Proof. unfold record_events. simpl. now rewrite app_assoc. Qed.

Lemma store_fits buf written w :
  (length written <= length buf)%nat ->
  store buf written w = (w, Returned (written ++ skipn (length written) buf)).
Proof.
  intros H. unfold store.
  destruct (Nat.leb_spec (length written) (length buf)); [reflexivity | lia].
Qed.

Lemma stored_length (buf written : bytes) :
  (length written <= length buf)%nat ->
  length (written ++ skipn (length written) buf) = length buf.
Proof. intros H. rewrite length_app, length_skipn. lia. Qed.

Lemma py_bytes_fits buf n w :
  0 <= n <= Z.of_nat (length buf) ->
  py_bytes buf n w = (w, Returned (firstn (Z.to_nat n) buf)).
Proof.
  intros [H0 H1]. unfold py_bytes.
  destruct (Z.ltb_spec n 0); [lia |].
  destruct (Z.leb_spec n (Z.of_nat (length buf))); [reflexivity | lia].
Qed.

Lemma py_bytes_negative buf n w :
  n < 0 -> py_bytes buf n w = (w, Thrown BytesNotAllocated).
Proof.
  intros H. unfold py_bytes. destruct (Z.ltb_spec n 0); [reflexivity | lia].
Qed.

Lemma py_bytes_world buf n w : fst (py_bytes buf n w) = w.
Proof.
  unfold py_bytes. destruct (n <? 0); [reflexivity |].
  destruct (n <=? Z.of_nat (length buf)); reflexivity.
Qed.

Lemma print_nonempty_log_run verbose label log w :
  print_nonempty_log_if verbose label log w =
  (record_events (diagnostics verbose label log) w, Returned tt).
Proof.
  unfold print_nonempty_log_if, diagnostics.
  destruct verbose, log; simpl; rewrite ?record_events_nil; reflexivity.
Qed.

(** Unfolds the monad's combinators and nothing else. *)
Ltac run_m :=
  cbv beta iota zeta delta [bind ret throw undefined call emit alloc].

(** ** [decompress] *)

Lemma decompress_capacity_nonneg max_size input_size :
  0 <= decompress_capacity max_size input_size.
Proof. unfold decompress_capacity. destruct (0 <? max_size); apply to_u32_range. Qed.

(** The run of [decompress] on an input that sniffs as compressed, with a
    decoder that keeps to the capacity it is given. *)
Lemma decompress_run L data max_size verbose w :
  let inbuf := decompress_input data in
  let cap := decompress_capacity max_size (input_size_of data) in
  let d := pspDecompress L inbuf (input_size_of data) cap in
  let called := [Call CIsCompressed; AllocOutput cap; Call (CDecompress cap)] in
  pspIsCompressed L inbuf <> 0 ->
  respects_cap d cap ->
  decompress L data max_size verbose w =
    if to_int (dec_ret d) <? 0
    then (record_events called w, Thrown (DecompressionFailed (dec_log d)))
    else (record_events (called ++ diagnostics verbose "Decompression:" (dec_log d)) w,
          Returned (firstn (Z.to_nat (to_int (dec_ret d)))
                           (dec_written d ++ skipn (length (dec_written d)) (zeros cap)))).
Proof.
  intros inbuf cap d called Hsniff [Hw Hr].
  assert (Hcap : 0 <= cap) by apply decompress_capacity_nonneg.
  assert (Hfit : (length (dec_written d) <= length (zeros cap))%nat).
  { pose proof (@zeros_length cap Hcap). lia. }
  unfold decompress. run_m.
  fold (input_size_of data). fold (decompress_input data). fold inbuf. fold cap. fold d.
  destruct (Z.eqb_spec (pspIsCompressed L inbuf) 0) as [E | _]; [contradiction |].
  rewrite store_fits by exact Hfit.
  destruct (Z.ltb_spec (to_int (dec_ret d)) 0) as [Hneg | Hpos].
  - rewrite !record_events_app. reflexivity.
  - rewrite print_nonempty_log_run.
    rewrite py_bytes_fits.
    + rewrite !record_events_app. reflexivity.
    + rewrite stored_length by exact Hfit. pose proof (@zeros_length cap Hcap). lia.
Qed.

Lemma firstn_length_le_Z (n : Z) (buf : bytes) :
  0 <= n -> Z.of_nat (length (firstn (Z.to_nat n) buf)) <= n.
Proof. intros H. rewrite length_firstn. lia. Qed.

Lemma decompress_input_small data :
  Z.of_nat (length data) < two32 -> decompress_input data = data.
Proof.
  intros H. unfold decompress_input, input_size_of.
  rewrite to_u32_small by lia. rewrite Nat2Z.id. apply firstn_all.
Qed.

(** C1.  For every input that sniffs as compressed and every positive
    [max_size], [decompress] over a decoder that keeps to the capacity it is
    given allocates an output buffer of [max_size] bytes (as a [u32]: never
    more than [max_size], and [max_size] itself for every value an [int]
    holds), hands the decoder that same capacity, and either returns at most
    that many bytes or throws "Decompression failed"; no outcome is a write
    or a read past the buffer. *)
Theorem decompress_within_max_size L data max_size verbose w
    (Hpos : 0 < max_size)
    (Hsniff : pspIsCompressed L (decompress_input data) <> 0)
    (Hcap : respects_cap
              (pspDecompress L (decompress_input data) (input_size_of data)
                             (to_u32 max_size))
              (to_u32 max_size)) :
  to_u32 max_size <= max_size /\
  (max_size < two31 -> to_u32 max_size = max_size) /\
  In (AllocOutput (to_u32 max_size))
     (trace (fst (decompress L data max_size verbose w))) /\
  In (Call (CDecompress (to_u32 max_size)))
     (trace (fst (decompress L data max_size verbose w))) /\
  ((exists out, snd (decompress L data max_size verbose w) = Returned out /\
                Z.of_nat (length out) <= to_u32 max_size) \/
   (exists log, snd (decompress L data max_size verbose w) =
                Thrown (DecompressionFailed log))).
Proof.
  assert (Ecap : decompress_capacity max_size (input_size_of data) = to_u32 max_size).
  { unfold decompress_capacity. destruct (Z.ltb_spec 0 max_size); [reflexivity | lia]. }
  pose proof (@decompress_run L data max_size verbose w) as Hrun.
  cbv zeta in Hrun. rewrite Ecap in Hrun. specialize (Hrun Hsniff Hcap).
  split; [apply to_u32_le; lia |].
  split; [intros Hint; apply to_u32_small; unfold two31, two32 in *; lia |].
  destruct Hcap as [_ Hret].
  destruct (Z.ltb_spec (to_int (dec_ret
     (pspDecompress L (decompress_input data) (input_size_of data)
                    (to_u32 max_size)))) 0)
    as [Hneg | Hnon]; rewrite Hrun; cbn [fst snd record_events trace].
  - repeat split.
    + apply in_or_app. right. simpl. auto.
    + apply in_or_app. right. simpl. auto.
    + right. eexists. reflexivity.
  - repeat split.
    + apply in_or_app. right. simpl. auto.
    + apply in_or_app. right. simpl. auto.
    + left. eexists. split; [reflexivity |].
      etransitivity; [apply firstn_length_le_Z; lia | lia].
Qed.

(** A run of C1: the GZIP magic, a cap of 8 bytes, a decoder that writes
    3 bytes and says so. *)
Lemma decompress_within_max_size_witness :
  to_u32 8 <= 8 /\
  (8 < two31 -> to_u32 8 = 8) /\
  In (AllocOutput (to_u32 8))
     (trace (fst (decompress (scripted gzip_script) gzip_input 8 false initial_world))) /\
  In (Call (CDecompress (to_u32 8)))
     (trace (fst (decompress (scripted gzip_script) gzip_input 8 false initial_world))) /\
  ((exists out, snd (decompress (scripted gzip_script) gzip_input 8 false initial_world)
                = Returned out /\
                Z.of_nat (length out) <= to_u32 8) \/
   (exists log, snd (decompress (scripted gzip_script) gzip_input 8 false initial_world)
                = Thrown (DecompressionFailed log))).
Proof.
  apply (@decompress_within_max_size (scripted gzip_script) gzip_input 8 false
           initial_world).
  - reflexivity.
  - vm_compute. discriminate.
  - vm_compute. split; [discriminate | right; split; discriminate].
Defined.



Lemma input_size_le data : input_size_of data <= Z.of_nat (length data).
Proof. unfold input_size_of. apply to_u32_le. lia. Qed.

(** The default capacity away from the overflow of line 223.  Without a
    positive [max_size] the capacity is ten times the input length computed
    in [u32]: never more than ten times the length, and exactly that
    whenever the product is below 2^32.  Over a decoder that keeps to its
    capacity, an input that sniffs as compressed either yields at most that
    many bytes or "Decompression failed". *)
Theorem decompress_default_capacity L data max_size verbose w
    (Hmax : max_size <= 0)
    (Hsniff : pspIsCompressed L (decompress_input data) <> 0)
    (Hcap : respects_cap
              (pspDecompress L (decompress_input data) (input_size_of data)
                             (to_u32 (input_size_of data * 10)))
              (to_u32 (input_size_of data * 10))) :
  to_u32 (input_size_of data * 10) <= 10 * Z.of_nat (length data) /\
  (10 * Z.of_nat (length data) < two32 ->
   to_u32 (input_size_of data * 10) = 10 * Z.of_nat (length data)) /\
  In (AllocOutput (to_u32 (input_size_of data * 10)))
     (trace (fst (decompress L data max_size verbose w))) /\
  ((exists out, snd (decompress L data max_size verbose w) = Returned out /\
                Z.of_nat (length out) <= to_u32 (input_size_of data * 10)) \/
   (exists log, snd (decompress L data max_size verbose w) =
                Thrown (DecompressionFailed log))) /\
  (to_int (dec_ret (pspDecompress L (decompress_input data) (input_size_of data)
                                  (to_u32 (input_size_of data * 10)))) < 0 ->
   exists log, snd (decompress L data max_size verbose w) =
               Thrown (DecompressionFailed log)).
Proof.
  assert (Ecap : decompress_capacity max_size (input_size_of data)
                 = to_u32 (input_size_of data * 10)).
  { unfold decompress_capacity. destruct (Z.ltb_spec 0 max_size); [lia | reflexivity]. }
  pose proof (@decompress_run L data max_size verbose w) as Hrun.
  cbv zeta in Hrun. rewrite Ecap in Hrun. specialize (Hrun Hsniff Hcap).
  pose proof (input_size_le data) as Hle.
  assert (H0 : 0 <= input_size_of data) by apply to_u32_range.
  split.
  { etransitivity; [apply to_u32_le; lia | lia]. }
  split.
  { intros Hsmall. unfold input_size_of.
    rewrite (@to_u32_small (Z.of_nat (length data))) by (unfold two32 in *; lia).
    rewrite to_u32_small by (unfold two32 in *; lia). lia. }
  destruct Hcap as [_ Hret].
  destruct (Z.ltb_spec (to_int (dec_ret
     (pspDecompress L (decompress_input data) (input_size_of data)
                    (to_u32 (input_size_of data * 10))))) 0)
    as [Hneg | Hnon]; rewrite Hrun; cbn [fst snd record_events trace].
  - repeat split.
    + apply in_or_app. right. simpl. auto.
    + right. eexists. reflexivity.
    + intros _. eexists. reflexivity.
  - repeat split.
    + apply in_or_app. right. simpl. auto.
    + left. eexists. split; [reflexivity |].
      etransitivity; [apply firstn_length_le_Z; lia | lia].
    + intros Hneg. lia.
Qed.

(** Four bytes with the GZIP magic: a capacity of 40. *)
Lemma decompress_default_capacity_witness :
  to_u32 (input_size_of gzip_input * 10) = 40 /\
  In (AllocOutput 40)
     (trace (fst (decompress (scripted gzip_script) gzip_input (-1) false initial_world))) /\
  snd (decompress (scripted gzip_script) gzip_input (-1) false initial_world)
  = Returned [x41; x42; x43].
Proof.
  assert (Hmax : -1 <= 0) by lia.
  assert (Hsniff : pspIsCompressed (scripted gzip_script) (decompress_input gzip_input)
                   <> 0) by (vm_compute; discriminate).
  assert (Hcap : respects_cap
                   (pspDecompress (scripted gzip_script) (decompress_input gzip_input)
                                  (input_size_of gzip_input)
                                  (to_u32 (input_size_of gzip_input * 10)))
                   (to_u32 (input_size_of gzip_input * 10)))
    by (vm_compute; split; [discriminate | right; split; discriminate]).
  destruct (@decompress_default_capacity (scripted gzip_script) gzip_input (-1)
              false initial_world Hmax Hsniff Hcap) as (_ & _ & H & _).
  split; [reflexivity |].
  split; [exact H | reflexivity].
Defined.

Lemma magic_sniff_gzip tail : magic_sniff (x1f :: x8b :: tail) = 1.
Proof. reflexivity. Qed.

Lemma huge_gzip_input_length : Z.of_nat (length huge_gzip_input) = 429496730.
Proof.
  unfold huge_gzip_input. rewrite length_app, repeat_length.
  rewrite Nat2Z.inj_add, Z2Nat.id by lia. reflexivity.
Qed.

Lemma gzip_script_respects_cap inbuf insize outcapacity cap :
  3 <= cap ->
  respects_cap (pspDecompress (scripted gzip_script) inbuf insize outcapacity) cap.
Proof.
  intros H. split; [exact H | right].
  change (to_int (dec_ret (pspDecompress (scripted gzip_script) inbuf insize outcapacity)))
    with 3.
  lia.
Qed.

Lemma five_byte_decoder_respects_cap inbuf insize cap :
  0 <= cap ->
  respects_cap (pspDecompress five_byte_decoder inbuf insize cap) cap.
Proof.
  intros H. cbn [pspDecompress five_byte_decoder].
  destruct (Z.leb_spec 5 cap); split; cbn [dec_written dec_ret length].
  - lia.
  - right. change (to_int 5) with 5. lia.
  - lia.
  - left. reflexivity.
Qed.

(** C10, at the input on which the code departs from it.  The default
    cap is to be ten times the input length; line 223 computes
    [input_size * 10] in [u32], and on an input of 429,496,730 bytes, ten
    times whose length is 4,294,967,300, the capacity the code computes,
    allocates and hands to the decoder is 4.  A decoder with three bytes to
    give is called with that capacity, and a decoder with five bytes to
    give, far fewer than ten times the input length, is refused:
    "Decompression failed". *)
Theorem default_capacity_wraps_around :
  10 * Z.of_nat (length huge_gzip_input) = 4294967300 /\
  decompress (scripted gzip_script) huge_gzip_input (-1) false initial_world =
  (record_events [Call CIsCompressed; AllocOutput 4; Call (CDecompress 4)] initial_world,
   Returned [x41; x42; x43]) /\
  decompress five_byte_decoder huge_gzip_input (-1) false initial_world =
  (record_events [Call CIsCompressed; AllocOutput 4; Call (CDecompress 4)] initial_world,
   Thrown (DecompressionFailed ",gzip")) /\
  decompress five_byte_decoder gzip_input (-1) false initial_world =
  (record_events [Call CIsCompressed; AllocOutput 40; Call (CDecompress 40)] initial_world,
   Returned [x41; x42; x43; x44; x45]).
Proof.
  split.
  { rewrite huge_gzip_input_length. reflexivity. }
  assert (Esize : input_size_of huge_gzip_input = 429496730).
  { unfold input_size_of. rewrite huge_gzip_input_length. reflexivity. }
  assert (Ein : decompress_input huge_gzip_input = huge_gzip_input).
  { apply decompress_input_small. rewrite huge_gzip_input_length. reflexivity. }
  assert (Hmagic : magic_sniff huge_gzip_input <> 0).
  { unfold huge_gzip_input. cbn [app]. rewrite magic_sniff_gzip. discriminate. }
  split; [| split].
  - pose proof (@decompress_run (scripted gzip_script) huge_gzip_input (-1) false
                  initial_world) as Hrun.
    cbv zeta in Hrun. rewrite Ein, Esize in Hrun.
    change (decompress_capacity (-1) 429496730) with 4 in Hrun.
    rewrite Hrun.
    + reflexivity.
    + exact Hmagic.
    + apply gzip_script_respects_cap. lia.
  - pose proof (@decompress_run five_byte_decoder huge_gzip_input (-1) false
                  initial_world) as Hrun.
    cbv zeta in Hrun. rewrite Ein, Esize in Hrun.
    change (decompress_capacity (-1) 429496730) with 4 in Hrun.
    rewrite Hrun.
    + reflexivity.
    + exact Hmagic.
    + apply five_byte_decoder_respects_cap. lia.
  - reflexivity.
Qed.

(** ** [decrypt_prx] *)

Lemma kirk_once_prx_run w : kirk_once_prx w = (after_kirk_prx w, Returned tt).
Proof.
  unfold kirk_once_prx, after_kirk_prx.
  destruct (prx_kirk_initialized w); reflexivity.
Qed.

Lemma kirk_once_ipl1_run w : kirk_once_ipl1 w = (after_kirk_ipl1 w, Returned tt).
Proof.
  unfold kirk_once_ipl1, after_kirk_ipl1.
  destruct (ipl1_kirk_initialized w); reflexivity.
Qed.

Lemma bind_kirk_once_prx A (k : unit -> M A) w :
  bind kirk_once_prx k w = k tt (after_kirk_prx w).
Proof. unfold bind. now rewrite kirk_once_prx_run. Qed.

Lemma bind_kirk_once_ipl1 A (k : unit -> M A) w :
  bind kirk_once_ipl1 k w = k tt (after_kirk_ipl1 w).
Proof. unfold bind. now rewrite kirk_once_ipl1_run. Qed.

(** Lines 24 to 39: the guard, then the size check. *)
Lemma decrypt_prx_too_small L data sid verbose w :
  input_size_of data < PSP_HEADER_SIZE ->
  decrypt_prx L data sid verbose w = (after_kirk_prx w, Thrown TooSmall).
Proof.
  intros H. unfold decrypt_prx, bind. rewrite kirk_once_prx_run.
  fold (input_size_of data).
  destruct (Z.ltb_spec (input_size_of data) PSP_HEADER_SIZE); [reflexivity | lia].
Qed.

(** Lines 41 to 50: the length check of the secure ID. *)
Lemma decrypt_prx_bad_secure_id L data sid verbose w :
  PSP_HEADER_SIZE <= input_size_of data ->
  length sid <> 16%nat ->
  decrypt_prx L data (Some sid) verbose w = (after_kirk_prx w, Thrown SecureIdLength).
Proof.
  intros Hsize Hlen. unfold decrypt_prx, bind. rewrite kirk_once_prx_run.
  fold (input_size_of data).
  destruct (Z.ltb_spec (input_size_of data) PSP_HEADER_SIZE); [lia |].
  destruct (Nat.eqb_spec (length sid) 16); [contradiction | reflexivity].
Qed.

(** Lines 55 to 90, once the checks have passed and the decryption has
    stayed within the output buffer. *)
Lemma decrypt_prx_run L data sid verbose w :
  PSP_HEADER_SIZE <= input_size_of data ->
  secure_id_ok sid ->
  (length (prx_written L data sid verbose) <= length (zeros (prx_capacity L data)))%nat ->
  decrypt_prx L data sid verbose w =
    let w1 := record_events
                [Call CGetPspSize; Call CGetElfSize;
                 AllocOutput (prx_capacity L data); Call (CDecryptPRX sid verbose)]
                (after_kirk_prx w) in
    let n := prx_output_size L data sid verbose in
    let buf := prx_output_buffer L data sid verbose in
    let elf := prx_elf_size L data in
    let d := prx_decoded L data sid verbose in
    if n <? 0 then (w1, Thrown PrxDecryptionFailed)
    else if 4 <=? n then
      if pspIsCompressed L buf =? 0
      then py_bytes buf n (record_events [Call CIsCompressed] w1)
      else
        (temp_buffer <- store (zeros elf) (dec_written d) ;;
         if int_eq_u32 (to_int (dec_ret d)) elf
         then print_log_if verbose "Decompression successful:" (dec_log d) ;;
              py_bytes temp_buffer (to_int (dec_ret d))
         else print_log_if verbose "Decompression failed:" (dec_log d) ;;
              py_bytes (dec_inbuf d) n)
          (record_events [Call CIsCompressed; AllocOutput elf; Call (CDecompress elf)] w1)
    else py_bytes buf n w1.
Proof.
  intros Hsize Hid Hfit. cbv zeta.
  unfold decrypt_prx.
  unfold bind at 1. rewrite kirk_once_prx_run.
  fold (input_size_of data).
  destruct (Z.ltb_spec (input_size_of data) PSP_HEADER_SIZE); [lia |].
  assert (Eid : match sid with
                | None => ret None
                | Some s => if (length s =? 16)%nat then ret (Some s) else throw SecureIdLength
                end = ret sid).
  { destruct sid as [s |]; [| reflexivity].
    simpl in Hid. rewrite Hid. reflexivity. }
  rewrite Eid. run_m.
  fold (prx_psp_size L data). fold (prx_elf_size L data). fold (prx_capacity L data).
  fold (prx_written L data sid verbose). fold (prx_output_size L data sid verbose).
  rewrite store_fits by exact Hfit.
  fold (prx_output_buffer L data sid verbose).
  rewrite !record_events_app. cbn [app].
  destruct (prx_output_size L data sid verbose <? 0); [reflexivity |].
  destruct (4 <=? prx_output_size L data sid verbose); [| reflexivity].
  rewrite !record_events_app. cbn [app].
  destruct (pspIsCompressed L (prx_output_buffer L data sid verbose) =? 0); cbn [negb].
  - reflexivity.
  - rewrite !record_events_app. cbn [app].
    fold (prx_decoded L data sid verbose). reflexivity.
Qed.

Lemma in_record_events e evs w :
  In e (trace (record_events evs w)) <-> In e (trace w) \/ In e evs.
Proof. unfold record_events. cbn [trace]. apply in_app_iff. Qed.

(** Case analysis on every test a run goes through, innermost first. *)
Ltac split_run :=
  repeat match goal with
         | |- context [match ?x with _ => _ end] =>
             lazymatch x with
             | context [match _ with _ => _ end] => fail
             | _ => destruct x eqn:?; cbv beta iota
             end
         end.

Lemma secure_id_accepted sid :
  secure_id_ok sid ->
  match sid with
  | None => ret None
  | Some s => if (length s =? 16)%nat then ret (Some s) else throw SecureIdLength
  end = ret sid.
Proof.
  intros Hid. destruct sid as [s |]; [| reflexivity].
  simpl in Hid. rewrite Hid. reflexivity.
Qed.

Lemma print_log_run verbose label log w :
  (verbose = true -> log <> EmptyString) ->
  print_log_if verbose label log w =
  (record_events (diagnostics verbose label log) w, Returned tt).
Proof.
  intros H. unfold print_log_if, diagnostics.
  destruct verbose.
  - destruct log; [now elim H |]. reflexivity.
  - destruct log; rewrite record_events_nil; reflexivity.
Qed.

(** A negative result of [pspDecryptPRX] is "PRX decryption failed". *)
Lemma decrypt_prx_negative_result_fails L data sid verbose w :
  PSP_HEADER_SIZE <= input_size_of data ->
  secure_id_ok sid ->
  (length (prx_written L data sid verbose) <= length (zeros (prx_capacity L data)))%nat ->
  prx_output_size L data sid verbose < 0 ->
  snd (decrypt_prx L data sid verbose w) = Thrown PrxDecryptionFailed.
Proof.
  intros Hsize Hid Hfit Hneg.
  rewrite decrypt_prx_run by assumption. cbv zeta.
  destruct (Z.ltb_spec (prx_output_size L data sid verbose) 0); [reflexivity | lia].
Qed.

(** A result that is not negative is never "PRX decryption failed". *)
Lemma decrypt_prx_nonnegative_result_not_failed L data sid verbose w :
  PSP_HEADER_SIZE <= input_size_of data ->
  secure_id_ok sid ->
  0 <= prx_output_size L data sid verbose ->
  snd (decrypt_prx L data sid verbose w) <> Thrown PrxDecryptionFailed.
Proof.
  intros Hsize Hid Hpos.
  unfold decrypt_prx.
  unfold bind at 1. rewrite kirk_once_prx_run.
  fold (input_size_of data).
  destruct (Z.ltb_spec (input_size_of data) PSP_HEADER_SIZE); [lia |].
  rewrite secure_id_accepted by assumption.
  unfold store, py_bytes, print_log_if, substr1, py_print. run_m.
  fold (prx_output_size L data sid verbose).
  destruct (Z.ltb_spec (prx_output_size L data sid verbose) 0); [lia |].
  split_run; cbn [snd]; discriminate.
Qed.

(** C3, at the input on which the code departs from it.  When
    [pspDecryptPRX] answers 0, [decrypt_prx] does not throw "PRX decryption
    failed": the test at line 67 is [output_size < 0], and the call returns
    the empty byte string. *)
Theorem decrypt_prx_zero_result_returns_empty L data sid verbose w
    (Hsize : PSP_HEADER_SIZE <= input_size_of data)
    (Hid : secure_id_ok sid)
    (Hfit : (length (prx_written L data sid verbose)
             <= length (zeros (prx_capacity L data)))%nat)
    (Hzero : prx_output_size L data sid verbose = 0) :
  snd (decrypt_prx L data sid verbose w) = Returned [].
Proof.
  rewrite decrypt_prx_run by assumption. cbv zeta.
  rewrite Hzero. cbn [Z.ltb Z.leb Z.compare].
  rewrite py_bytes_fits by lia. reflexivity.
Qed.

(** The run of C3: a header-sized input on which the library answers 0. *)
Lemma decrypt_prx_zero_result_witness :
  snd (decrypt_prx (scripted zero_script) blank_header None false initial_world)
  = Returned [].
Proof.
  apply (@decrypt_prx_zero_result_returns_empty (scripted zero_script) blank_header
           None false initial_world).
  - vm_compute. discriminate.
  - exact I.
  - vm_compute. lia.
  - reflexivity.
Defined.

Lemma prx_temp_buffer_length L data sid verbose :
  Z.of_nat (length (dec_written (prx_decoded L data sid verbose)))
  <= prx_elf_size L data ->
  Z.of_nat (length (prx_temp_buffer L data sid verbose)) = prx_elf_size L data.
Proof.
  intros H.
  assert (H0 : 0 <= prx_elf_size L data) by apply to_u32_range.
  pose proof (@zeros_length _ H0) as Hz.
  unfold prx_temp_buffer. rewrite stored_length by lia. exact Hz.
Qed.

(** C4 as stated fails on a decrypted payload of three bytes that opens
    with the GZIP magic: the output buffer sniffs as compressed, but line 72
    asks for at least four bytes first, so nothing is allocated for a
    decompression, the decoder is not called, and the three bytes are
    returned as they are. *)
Lemma decrypt_prx_short_payload_not_decompressed :
  magic_sniff (prx_output_buffer (scripted short_payload_script) blank_header None false)
  = 1 /\
  decrypt_prx (scripted short_payload_script) blank_header None false initial_world =
  ({| prx_kirk_initialized := true;
      ipl1_kirk_initialized := false;
      trace := [Call CKirkInit; Call CGetPspSize; Call CGetElfSize;
                AllocOutput 16; Call (CDecryptPRX None false)] |},
   Returned [x1f; x8b; x08]).
Proof. split; vm_compute; reflexivity. Qed.

(** C4, as the code has it.  Once the size check and the secure ID check
    have passed and the decryption has written within its output buffer:
    when it has reported at least four bytes, no more than the buffer holds,
    and the buffer sniffs as compressed, [decrypt_prx] allocates a buffer of
    [elf_size] bytes and calls the decoder on the decrypted buffer with
    [elf_size] as its capacity.
    Provided the decoder writes within that capacity, works on the decrypted
    buffer in place (the buffer keeps its size) and, when [verbose] is set,
    leaves a log that is not empty: a result equal to [elf_size] makes the
    call return the decompressed buffer, [elf_size] bytes long; a result
    that differs from [elf_size] and from [elf_size - 2^32] makes the call
    return the first [output_size] bytes of the decrypted buffer as the
    decoder left it. *)
Theorem decrypt_prx_decompress_step L data sid verbose w
    (Hsize : PSP_HEADER_SIZE <= input_size_of data)
    (Hid : secure_id_ok sid)
    (Hfit : (length (prx_written L data sid verbose)
             <= length (zeros (prx_capacity L data)))%nat)
    (Hfour : 4 <= prx_output_size L data sid verbose <= prx_capacity L data)
    (Hsniff : pspIsCompressed L (prx_output_buffer L data sid verbose) <> 0)
    (Hcap : Z.of_nat (length (dec_written (prx_decoded L data sid verbose)))
            <= prx_elf_size L data)
    (Hplace : length (dec_inbuf (prx_decoded L data sid verbose))
              = length (prx_output_buffer L data sid verbose))
    (Hlog : verbose = true ->
            dec_log (prx_decoded L data sid verbose) <> EmptyString) :
  In (AllocOutput (prx_elf_size L data))
     (trace (fst (decrypt_prx L data sid verbose w))) /\
  In (Call (CDecompress (prx_elf_size L data)))
     (trace (fst (decrypt_prx L data sid verbose w))) /\
  (to_int (dec_ret (prx_decoded L data sid verbose)) = prx_elf_size L data ->
   snd (decrypt_prx L data sid verbose w) = Returned (prx_temp_buffer L data sid verbose) /\
   Z.of_nat (length (prx_temp_buffer L data sid verbose)) = prx_elf_size L data) /\
  (to_int (dec_ret (prx_decoded L data sid verbose)) <> prx_elf_size L data ->
   to_int (dec_ret (prx_decoded L data sid verbose)) + two32 <> prx_elf_size L data ->
   snd (decrypt_prx L data sid verbose w) =
   Returned (firstn (Z.to_nat (prx_output_size L data sid verbose))
                    (dec_inbuf (prx_decoded L data sid verbose)))).
Proof.
  assert (Helf : 0 <= prx_elf_size L data < two32) by apply to_u32_range.
  assert (Hcapz : 0 <= prx_capacity L data) by apply to_u32_range.
  pose proof (to_int_range (dec_ret (prx_decoded L data sid verbose))) as Hret.
  pose proof (prx_temp_buffer_length L data sid verbose Hcap) as Htemp.
  assert (Hbuf : Z.of_nat (length (prx_output_buffer L data sid verbose))
                 = prx_capacity L data).
  { unfold prx_output_buffer. rewrite stored_length by exact Hfit.
    apply zeros_length. exact Hcapz. }
  assert (Hzfit : (length (dec_written (prx_decoded L data sid verbose))
                   <= length (zeros (prx_elf_size L data)))%nat).
  { pose proof (@zeros_length (prx_elf_size L data)). lia. }
  pose proof (@decrypt_prx_run L data sid verbose w Hsize Hid Hfit) as Hrun.
  cbv zeta in Hrun.
  assert (E1 : (prx_output_size L data sid verbose <? 0) = false) by (apply Z.ltb_ge; lia).
  assert (E2 : (4 <=? prx_output_size L data sid verbose) = true) by (apply Z.leb_le; lia).
  assert (E3 : (pspIsCompressed L (prx_output_buffer L data sid verbose) =? 0) = false)
    by (apply Z.eqb_neq; exact Hsniff).
  rewrite E1, E2, E3 in Hrun.
  unfold bind at 1 in Hrun. rewrite store_fits in Hrun by exact Hzfit.
  fold (prx_temp_buffer L data sid verbose) in Hrun.
  destruct (int_eq_u32 (to_int (dec_ret (prx_decoded L data sid verbose)))
                       (prx_elf_size L data)) eqn:Eacc;
    unfold bind in Hrun; rewrite print_log_run in Hrun by exact Hlog;
    rewrite Hrun; clear Hrun;
    rewrite !py_bytes_world, !in_record_events; cbn [In].
  - apply int_eq_u32_spec in Eacc; [| assumption | assumption].
    split; [tauto |]. split; [tauto |]. split.
    + intros Heq. rewrite py_bytes_fits by lia. cbn [snd].
      split; [| exact Htemp].
      rewrite Heq, <- Htemp, Nat2Z.id, firstn_all. reflexivity.
    + intros Hne Hwrap. exfalso. tauto.
  - assert (Hno : ~ (to_int (dec_ret (prx_decoded L data sid verbose)) = prx_elf_size L data
                     \/ to_int (dec_ret (prx_decoded L data sid verbose)) + two32
                        = prx_elf_size L data)).
    { intros Hyes. apply int_eq_u32_spec in Hyes; [congruence | assumption | assumption]. }
    rewrite py_bytes_fits by lia. cbn [snd].
    repeat split; try tauto.
Qed.

(** A run of C4: the decryption gives the four bytes of [gzip_input], the
    header says [elf_size] is 3, and the decoder fills the three bytes. *)
Lemma decrypt_prx_decompress_step_witness :
  snd (decrypt_prx (scripted compressed_prx_script) blank_header None true initial_world)
  = Returned [x41; x42; x43].
Proof.
  assert (Hsize : PSP_HEADER_SIZE <= input_size_of blank_header)
    by (vm_compute; discriminate).
  assert (Hid : secure_id_ok None) by exact I.
  assert (Hfit : (length (prx_written (scripted compressed_prx_script) blank_header
                                      None true)
                  <= length (zeros (prx_capacity (scripted compressed_prx_script)
                                                 blank_header)))%nat)
    by (vm_compute; lia).
  assert (Hfour : 4 <= prx_output_size (scripted compressed_prx_script) blank_header
                                       None true
                  <= prx_capacity (scripted compressed_prx_script) blank_header)
    by (vm_compute; split; discriminate).
  assert (Hsniff : pspIsCompressed (scripted compressed_prx_script)
                     (prx_output_buffer (scripted compressed_prx_script) blank_header
                                        None true) <> 0)
    by (vm_compute; discriminate).
  assert (Hcap : Z.of_nat (length (dec_written
                    (prx_decoded (scripted compressed_prx_script) blank_header None true)))
                 <= prx_elf_size (scripted compressed_prx_script) blank_header)
    by (vm_compute; discriminate).
  assert (Hplace : length (dec_inbuf (prx_decoded (scripted compressed_prx_script)
                                                  blank_header None true))
                   = length (prx_output_buffer (scripted compressed_prx_script)
                                               blank_header None true))
    by reflexivity.
  assert (Hlog : true = true ->
                 dec_log (prx_decoded (scripted compressed_prx_script) blank_header
                                      None true) <> EmptyString)
    by (intros _; vm_compute; discriminate).
  destruct (@decrypt_prx_decompress_step (scripted compressed_prx_script) blank_header
              None true initial_world Hsize Hid Hfit Hfour Hsniff Hcap Hplace Hlog)
    as (_ & _ & Haccepted & _).
  destruct Haccepted as [H _]; [reflexivity | exact H].
Defined.

(** The slip beside C4: the test at line 78 compares an [int] with a [u32].
    A negative answer [r] of the decoder passes it when [elf_size] is
    [r + 2^32]; the call then builds its result with a negative length,
    and fails. *)
Lemma decrypt_prx_wrapped_result_accepted L data sid verbose w :
  PSP_HEADER_SIZE <= input_size_of data ->
  secure_id_ok sid ->
  (length (prx_written L data sid verbose) <= length (zeros (prx_capacity L data)))%nat ->
  4 <= prx_output_size L data sid verbose ->
  pspIsCompressed L (prx_output_buffer L data sid verbose) <> 0 ->
  Z.of_nat (length (dec_written (prx_decoded L data sid verbose))) <= prx_elf_size L data ->
  dec_log (prx_decoded L data sid verbose) <> EmptyString ->
  to_int (dec_ret (prx_decoded L data sid verbose)) + two32 = prx_elf_size L data ->
  snd (decrypt_prx L data sid verbose w) = Thrown BytesNotAllocated.
Proof.
  intros Hsize Hid Hfit Hfour Hsniff Hcap Hlog Hwrap.
  assert (Helf : 0 <= prx_elf_size L data < two32) by apply to_u32_range.
  pose proof (to_int_range (dec_ret (prx_decoded L data sid verbose))) as Hret.
  assert (Hzfit : (length (dec_written (prx_decoded L data sid verbose))
                   <= length (zeros (prx_elf_size L data)))%nat).
  { pose proof (@zeros_length (prx_elf_size L data)). lia. }
  rewrite decrypt_prx_run by assumption. cbv zeta.
  destruct (Z.ltb_spec (prx_output_size L data sid verbose) 0); [lia |].
  destruct (Z.leb_spec 4 (prx_output_size L data sid verbose)); [| lia].
  destruct (Z.eqb_spec (pspIsCompressed L (prx_output_buffer L data sid verbose)) 0);
    [contradiction |].
  unfold bind at 1. rewrite store_fits by exact Hzfit.
  assert (Eacc : int_eq_u32 (to_int (dec_ret (prx_decoded L data sid verbose)))
                            (prx_elf_size L data) = true).
  { apply int_eq_u32_spec; [assumption | assumption | now right]. }
  rewrite Eacc. unfold bind. rewrite print_log_run by (intros _; exact Hlog).
  rewrite py_bytes_negative by (unfold two32 in *; lia). reflexivity.
Qed.

(** A run of the slip: a failure code of -16 against an [elf_size] of
    0xFFFFFFF0. *)
Lemma decrypt_prx_wrapped_result_run :
  snd (decrypt_prx (scripted wrapped_script) blank_header None false initial_world)
  = Thrown BytesNotAllocated.
Proof.
  assert (Ecap : prx_capacity (scripted wrapped_script) blank_header = 4294967280)
    by (vm_compute; reflexivity).
  assert (Eelf : prx_elf_size (scripted wrapped_script) blank_header = 4294967280)
    by (vm_compute; reflexivity).
  apply decrypt_prx_wrapped_result_accepted.
  - vm_compute. discriminate.
  - exact I.
  - rewrite Ecap.
    pose proof (@zeros_length 4294967280). 
    change (length (prx_written (scripted wrapped_script) blank_header None false)) with 4%nat.
    lia.
  - change (prx_output_size (scripted wrapped_script) blank_header None false) with 4. lia.
  - unfold prx_output_buffer.
    change (prx_written (scripted wrapped_script) blank_header None false) with gzip_input.
    change (pspIsCompressed (scripted wrapped_script)) with magic_sniff.
    unfold gzip_input at 1. cbn [app]. rewrite magic_sniff_gzip. discriminate.
  - rewrite Eelf.
    change (dec_written (prx_decoded (scripted wrapped_script) blank_header None false))
      with (@nil byte).
    cbn [length]. lia.
  - change (dec_log (prx_decoded (scripted wrapped_script) blank_header None false))
      with ",gzip"%string. discriminate.
  - rewrite Eelf.
    change (dec_ret (prx_decoded (scripted wrapped_script) blank_header None false))
      with (-16).
    reflexivity.
Qed.

(** C6.  A secure ID that is not 16 bytes long makes [decrypt_prx] throw,
    "too small" or "Secure ID must be exactly 16 bytes", with nothing done
    but the initialisation guard: no call of [pspDecryptPRX] is added to the
    trace.  A secure ID of 16 bytes, on an input of header size or more, is
    never refused for its length and is the seed [pspDecryptPRX] is run
    with: the call is on the trace with it, and the outcome is that of the
    run with this seed.  When that run has written within the output buffer,
    the call throws "PRX decryption failed" exactly when the run with this
    seed answers a negative value, and when it answers a length within the
    buffer that is below four, or the buffer it has filled does not sniff
    as compressed, the call returns that many bytes of that buffer. *)
Theorem decrypt_prx_checks_secure_id L data verbose w sid
    (Hlen : length sid <> 16%nat) :
  (exists e, decrypt_prx L data (Some sid) verbose w = (after_kirk_prx w, Thrown e) /\
             (e = TooSmall \/ e = SecureIdLength)) /\
  (forall seed v, In (Call (CDecryptPRX seed v)) (trace (after_kirk_prx w)) ->
                  In (Call (CDecryptPRX seed v)) (trace w)) /\
  (forall sid16, length sid16 = 16%nat ->
     PSP_HEADER_SIZE <= input_size_of data ->
     In (Call (CDecryptPRX (Some sid16) verbose))
        (trace (fst (decrypt_prx L data (Some sid16) verbose w))) /\
     snd (decrypt_prx L data (Some sid16) verbose w) <> Thrown SecureIdLength /\
     ((length (prx_written L data (Some sid16) verbose)
       <= length (zeros (prx_capacity L data)))%nat ->
      (prx_output_size L data (Some sid16) verbose < 0 <->
       snd (decrypt_prx L data (Some sid16) verbose w) = Thrown PrxDecryptionFailed) /\
      (0 <= prx_output_size L data (Some sid16) verbose <= prx_capacity L data ->
       prx_output_size L data (Some sid16) verbose < 4 \/
       pspIsCompressed L (prx_output_buffer L data (Some sid16) verbose) = 0 ->
       snd (decrypt_prx L data (Some sid16) verbose w) =
       Returned (firstn (Z.to_nat (prx_output_size L data (Some sid16) verbose))
                        (prx_output_buffer L data (Some sid16) verbose))))).
Proof.
  split; [| split].
  - destruct (Z_lt_le_dec (input_size_of data) PSP_HEADER_SIZE) as [Hsmall | Hbig].
    + exists TooSmall. split; [now apply decrypt_prx_too_small | now left].
    + exists SecureIdLength. split; [now apply decrypt_prx_bad_secure_id | now right].
  - intros seed v. unfold after_kirk_prx.
    destruct (prx_kirk_initialized w); [trivial |].
    cbn [set_prx_kirk_initialized record_events trace]. rewrite in_app_iff. cbn [In].
    intros [H | [H | H]].
    + exact H.
    + discriminate H.
    + contradiction.
  - intros sid16 H16 Hsize.
    assert (Hid : secure_id_ok (Some sid16)) by exact H16.
    split; [| split].
    + unfold decrypt_prx.
      unfold bind at 1. rewrite kirk_once_prx_run.
      fold (input_size_of data).
      destruct (Z.ltb_spec (input_size_of data) PSP_HEADER_SIZE); [lia |].
      rewrite (secure_id_accepted _ Hid).
      unfold store, py_bytes, print_log_if, substr1, py_print. run_m.
      split_run; cbn [fst]; rewrite ?in_record_events; cbn [In]; tauto.
    + unfold decrypt_prx.
      unfold bind at 1. rewrite kirk_once_prx_run.
      fold (input_size_of data).
      destruct (Z.ltb_spec (input_size_of data) PSP_HEADER_SIZE); [lia |].
      rewrite (secure_id_accepted _ Hid).
      unfold store, py_bytes, print_log_if, substr1, py_print. run_m.
      split_run; cbn [snd]; discriminate.
    + intros Hfit. split.
      * split.
        -- intros Hneg. now apply decrypt_prx_negative_result_fails.
        -- intros Hfail.
           destruct (Z_lt_le_dec (prx_output_size L data (Some sid16) verbose) 0)
             as [Hneg | Hpos]; [exact Hneg |].
           exfalso.
           now apply (@decrypt_prx_nonnegative_result_not_failed
                        L data (Some sid16) verbose w Hsize Hid Hpos).
      * intros Hrange Hplain.
        assert (Hcapz : 0 <= prx_capacity L data) by apply to_u32_range.
        assert (Hbuf : Z.of_nat (length (prx_output_buffer L data (Some sid16) verbose))
                       = prx_capacity L data).
        { unfold prx_output_buffer. rewrite stored_length by exact Hfit.
          apply zeros_length. exact Hcapz. }
        rewrite decrypt_prx_run by assumption. cbv zeta.
        destruct (Z.ltb_spec (prx_output_size L data (Some sid16) verbose) 0); [lia |].
        destruct (Z.leb_spec 4 (prx_output_size L data (Some sid16) verbose)).
        -- destruct Hplain as [Hlt | Hzero]; [lia |].
           rewrite Hzero. cbn [Z.eqb].
           rewrite py_bytes_fits by lia. reflexivity.
        -- rewrite py_bytes_fits by lia. reflexivity.
Qed.

(** A run of C6: a secure ID of three bytes. *)
Lemma decrypt_prx_checks_secure_id_witness :
  exists e,
    decrypt_prx (scripted compressed_prx_script) blank_header
                (Some [x01; x02; x03]) false initial_world
    = (after_kirk_prx initial_world, Thrown e) /\
    (e = TooSmall \/ e = SecureIdLength).
Proof.
  assert (Hlen : length [x01; x02; x03] <> 16%nat) by (simpl; lia).
  destruct (@decrypt_prx_checks_secure_id (scripted compressed_prx_script) blank_header
              false initial_world [x01; x02; x03] Hlen) as [H _].
  exact H.
Defined.

(** ** The verbosity flag *)

(** Away from the slip of lines 82 and 85: over a library whose
    [pspDecryptPRX] does not let the flag change its answer and whose
    decoder never leaves the log empty, [decrypt_prx] gives the same outcome
    with [verbose] set as with [verbose] clear. *)
Lemma decrypt_prx_verbosity L data sid w :
  verbosity_blind L ->
  (forall inbuf insize outcapacity,
     dec_log (pspDecompress L inbuf insize outcapacity) <> EmptyString) ->
  snd (decrypt_prx L data sid true w) = snd (decrypt_prx L data sid false w).
Proof.
  intros Hblind Hlogs.
  unfold decrypt_prx.
  rewrite !bind_kirk_once_prx.
  destruct (to_u32 (Z.of_nat (length data)) <? PSP_HEADER_SIZE); [reflexivity |].
  destruct sid as [s |];
    [destruct (length s =? 16)%nat; [| reflexivity] |];
    unfold store, py_bytes, print_log_if, substr1, py_print; run_m;
    rewrite Hblind;
    split_run; cbn [snd]; try reflexivity;
    match goal with
    | E : dec_log _ = EmptyString |- _ => now apply Hlogs in E
    end.
Qed.

(** [decrypt_ipl1] tests the log before it prints it (line 166): the flag
    never changes its outcome. *)
Lemma decrypt_ipl1_verbosity L data w :
  snd (decrypt_ipl1 L data true w) = snd (decrypt_ipl1 L data false w).
Proof.
  unfold decrypt_ipl1.
  rewrite !bind_kirk_once_ipl1.
  unfold store, py_bytes, print_nonempty_log_if, substr1, py_print, nonempty. run_m.
  split_run; cbn [snd]; try reflexivity; discriminate.
Qed.

(** So does [decompress] (line 234). *)
Lemma decompress_verbosity L data max_size w :
  snd (decompress L data max_size true w) = snd (decompress L data max_size false w).
Proof.
  unfold decompress.
  unfold store, py_bytes, print_nonempty_log_if, substr1, py_print, nonempty. run_m.
  split_run; cbn [snd]; try reflexivity; discriminate.
Qed.

(** C8, at the input on which the code departs from it.  The library of
    [silent_decoder_script] answers the same with the flag set or clear;
    its decryption gives four bytes that sniff as compressed and its decoder
    fills the three bytes of [elf_size] and leaves the log empty.  With
    [verbose] clear [decrypt_prx] returns the three decompressed bytes; with
    [verbose] set, line 82 takes [substr(1)] of the empty log and the call
    throws [std::out_of_range] instead. *)
Theorem decrypt_prx_verbose_changes_outcome :
  verbosity_blind (scripted silent_decoder_script) /\
  snd (decrypt_prx (scripted silent_decoder_script) blank_header None false
                   initial_world)
  = Returned [x41; x42; x43] /\
  snd (decrypt_prx (scripted silent_decoder_script) blank_header None true
                   initial_world)
  = Thrown SubstrOutOfRange.
Proof.
  split; [| split].
  - intros data size seed. reflexivity.
  - vm_compute. reflexivity.
  - vm_compute. reflexivity.
Qed.

(** ** [get_prx_info] *)

Lemma get_prx_info_too_small L data w :
  Z.of_nat (length data) < PSP_HEADER_SIZE ->
  get_prx_info L data w = (w, Thrown TooSmall).
Proof.
  intros H. unfold get_prx_info.
  destruct (Z.ltb_spec (Z.of_nat (length data)) PSP_HEADER_SIZE); [reflexivity | lia].
Qed.

Lemma get_prx_info_run L data w :
  PSP_HEADER_SIZE <= Z.of_nat (length data) ->
  get_prx_info L data w = (record_events header_reads w, Returned (info_of L data)).
Proof.
  intros H. unfold get_prx_info.
  destruct (Z.ltb_spec (Z.of_nat (length data)) PSP_HEADER_SIZE); [lia |].
  run_m. rewrite !record_events_app. reflexivity.
Qed.

(** C5.  On every input of header size or more [get_prx_info] returns the
    five fields, read from the input alone; all it does is call the four
    header getters and the sniff: no key load, no decryption, no decoding,
    no output buffer, no print, and the initialisation flags are left as
    they were.  A second call on the same bytes returns the same
    dictionary.  (The input is handed to the getters as a pointer to const;
    in the embedding it is a value.) *)
Theorem get_prx_info_pure L data w
    (Hsize : PSP_HEADER_SIZE <= Z.of_nat (length data)) :
  get_prx_info L data w = (record_events header_reads w, Returned (info_of L data)) /\
  prx_kirk_initialized (fst (get_prx_info L data w)) = prx_kirk_initialized w /\
  ipl1_kirk_initialized (fst (get_prx_info L data w)) = ipl1_kirk_initialized w /\
  forallb (fun e => negb (is_effect e)) header_reads = true /\
  snd (get_prx_info L data (fst (get_prx_info L data w)))
  = snd (get_prx_info L data w).
Proof.
  rewrite !get_prx_info_run by exact Hsize.
  repeat split.
Qed.

(** A run of C5: the all-zero header under the compressed image's script. *)
Lemma get_prx_info_pure_witness :
  get_prx_info (scripted compressed_prx_script) blank_header initial_world =
  (record_events header_reads initial_world,
   Returned {| tag := 0; elf_size := 3; psp_size := 16; comp_size := 4;
               is_compressed := false |}).
Proof.
  assert (Hsize : PSP_HEADER_SIZE <= Z.of_nat (length blank_header))
    by (vm_compute; discriminate).
  destruct (@get_prx_info_pure (scripted compressed_prx_script) blank_header
              initial_world Hsize) as [H _].
  exact H.
Defined.

(** ** Tactics for whole runs, and a sibling of line 67 *)

Ltac unfold_run :=
  unfold store, py_bytes, print_log_if, print_nonempty_log_if, substr1, py_print,
         nonempty;
  run_m.

(** The sibling of line 67: an answer of 0 from [pspDecryptIPL1] is "IPL
    stage 1 decryption failed". *)
Lemma decrypt_ipl1_zero_result_fails L data verbose w :
  to_int (fst (fst (pspDecryptIPL1 L data (input_size_of data)))) = 0 ->
  (length (snd (fst (pspDecryptIPL1 L data (input_size_of data))))
   <= length (zeros (input_size_of data)))%nat ->
  snd (decrypt_ipl1 L data verbose w) = Thrown Ipl1Failed.
Proof.
  intros Hzero Hfit.
  unfold decrypt_ipl1. rewrite bind_kirk_once_ipl1. run_m.
  fold (input_size_of data).
  destruct (pspDecryptIPL1 L data (input_size_of data)) as [[r written] log].
  cbn [fst snd] in Hzero, Hfit.
  rewrite store_fits by exact Hfit. rewrite Hzero. reflexivity.
Qed.

(** ** Initialisation *)

Lemma kirk_loads_app t1 t2 : kirk_loads (t1 ++ t2) = (kirk_loads t1 + kirk_loads t2)%nat.
Proof. unfold kirk_loads. now rewrite filter_app, length_app. Qed.

Create HintDb quiet.

Lemma quiet_ret A (a : A) : quiet (ret a).
Proof. intros w. auto. Qed.

Lemma quiet_throw A e : quiet (@throw A e).
Proof. intros w. auto. Qed.

Lemma quiet_undefined A f : quiet (@undefined A f).
Proof. intros w. auto. Qed.

Lemma quiet_bind A B (m : M A) (k : A -> M B) :
  quiet m -> (forall a, quiet (k a)) -> quiet (bind m k).
Proof.
  intros Hm Hk w. unfold bind.
  destruct (Hm w) as (H1 & H2 & H3).
  destruct (m w) as [w' [a | e | f]]; cbn [fst] in *; auto.
  destruct (Hk a w') as (K1 & K2 & K3).
  repeat split; congruence.
Qed.

Lemma quiet_emit e : is_kirk_init e = false -> quiet (emit e).
Proof.
  intros He w. unfold emit, record_events. cbn [fst prx_kirk_initialized
    ipl1_kirk_initialized trace].
  repeat split. rewrite kirk_loads_app. unfold kirk_loads at 2. cbn [filter].
  rewrite He. cbn [length]. lia.
Qed.

Lemma quiet_call A c (v : A) : c <> CKirkInit -> quiet (call c v).
Proof.
  intros Hc. unfold call. apply quiet_bind; [| intros; apply quiet_ret].
  apply quiet_emit. destruct c; try reflexivity. contradiction.
Qed.

Lemma quiet_alloc n : quiet (alloc n).
Proof.
  unfold alloc. apply quiet_bind; [| intros; apply quiet_ret].
  now apply quiet_emit.
Qed.

Lemma quiet_store buf written : quiet (store buf written).
Proof.
  unfold store. destruct (length written <=? length buf)%nat;
    [apply quiet_ret | apply quiet_undefined].
Qed.

Lemma quiet_py_bytes buf n : quiet (py_bytes buf n).
Proof.
  unfold py_bytes. destruct (n <? 0); [apply quiet_throw |].
  destruct (n <=? Z.of_nat (length buf)); [apply quiet_ret | apply quiet_undefined].
Qed.

Lemma quiet_substr1 s : quiet (substr1 s).
Proof. destruct s; [apply quiet_throw | apply quiet_ret]. Qed.

Lemma quiet_py_print label text : quiet (py_print label text).
Proof. unfold py_print. now apply quiet_emit. Qed.

Lemma quiet_print_log_if verbose label log : quiet (print_log_if verbose label log).
Proof.
  unfold print_log_if. destruct verbose; [| apply quiet_ret].
  apply quiet_bind; [apply quiet_substr1 | intros; apply quiet_py_print].
Qed.

Lemma quiet_print_nonempty_log_if verbose label log :
  quiet (print_nonempty_log_if verbose label log).
Proof.
  unfold print_nonempty_log_if. destruct (verbose && nonempty log); [| apply quiet_ret].
  apply quiet_bind; [apply quiet_substr1 | intros; apply quiet_py_print].
Qed.

#[local] Hint Resolve quiet_ret quiet_throw quiet_undefined quiet_alloc quiet_store
  quiet_py_bytes quiet_print_log_if quiet_print_nonempty_log_if : quiet.
#[local] Hint Extern 2 (quiet (bind _ _)) => apply quiet_bind; [| intros] : quiet.
#[local] Hint Extern 1 (quiet (call _ _)) => apply quiet_call; discriminate : quiet.
#[local] Hint Extern 3 (quiet (if ?c then _ else _)) => destruct c : quiet.
#[local] Hint Extern 3 (quiet (match ?x with _ => _ end)) => destruct x : quiet.

Lemma quiet_get_prx_info L data : quiet (get_prx_info L data).
Proof. unfold get_prx_info. auto 20 with quiet. Qed.

Lemma quiet_linearize_ipl2 L data : quiet (linearize_ipl2 L data).
Proof. unfold linearize_ipl2. cbv zeta. auto 20 with quiet. Qed.

Lemma quiet_decrypt_ipl3 L data : quiet (decrypt_ipl3 L data).
Proof. unfold decrypt_ipl3. cbv zeta. auto 20 with quiet. Qed.

Lemma quiet_decompress L data max_size verbose : quiet (decompress L data max_size verbose).
Proof. unfold decompress. cbv zeta. auto 20 with quiet. Qed.

Lemma after_kirk_prx_guards w :
  prx_kirk_initialized (after_kirk_prx w) = true /\
  ipl1_kirk_initialized (after_kirk_prx w) = ipl1_kirk_initialized w /\
  kirk_loads (trace (after_kirk_prx w))
  = (kirk_loads (trace w) + if prx_kirk_initialized w then 0 else 1)%nat.
Proof.
  unfold after_kirk_prx. destruct (prx_kirk_initialized w) eqn:E.
  - repeat split; [exact E | lia].
  - cbn [set_prx_kirk_initialized record_events prx_kirk_initialized
         ipl1_kirk_initialized trace].
    repeat split. rewrite kirk_loads_app. reflexivity.
Qed.

Lemma after_kirk_ipl1_guards w :
  prx_kirk_initialized (after_kirk_ipl1 w) = prx_kirk_initialized w /\
  ipl1_kirk_initialized (after_kirk_ipl1 w) = true /\
  kirk_loads (trace (after_kirk_ipl1 w))
  = (kirk_loads (trace w) + if ipl1_kirk_initialized w then 0 else 1)%nat.
Proof.
  unfold after_kirk_ipl1. destruct (ipl1_kirk_initialized w) eqn:E.
  - repeat split; [exact E | lia].
  - cbn [set_ipl1_kirk_initialized record_events prx_kirk_initialized
         ipl1_kirk_initialized trace].
    repeat split. rewrite kirk_loads_app. reflexivity.
Qed.

(** [decrypt_prx] is its guard followed by a quiet computation. *)
Lemma decrypt_prx_guards L data sid verbose w :
  prx_kirk_initialized (fst (decrypt_prx L data sid verbose w)) = true /\
  ipl1_kirk_initialized (fst (decrypt_prx L data sid verbose w))
  = ipl1_kirk_initialized w /\
  kirk_loads (trace (fst (decrypt_prx L data sid verbose w)))
  = (kirk_loads (trace w) + if prx_kirk_initialized w then 0 else 1)%nat.
Proof.
  unfold decrypt_prx. rewrite !bind_kirk_once_prx.
  match goal with
  | |- context [?k (after_kirk_prx w)] =>
      assert (Hq : quiet k) by (cbv zeta; auto 30 with quiet)
  end.
  destruct (Hq (after_kirk_prx w)) as (H1 & H2 & H3).
  destruct (after_kirk_prx_guards w) as (G1 & G2 & G3).
  repeat split; congruence.
Qed.

Lemma decrypt_ipl1_guards L data verbose w :
  prx_kirk_initialized (fst (decrypt_ipl1 L data verbose w))
  = prx_kirk_initialized w /\
  ipl1_kirk_initialized (fst (decrypt_ipl1 L data verbose w)) = true /\
  kirk_loads (trace (fst (decrypt_ipl1 L data verbose w)))
  = (kirk_loads (trace w) + if ipl1_kirk_initialized w then 0 else 1)%nat.
Proof.
  unfold decrypt_ipl1. rewrite !bind_kirk_once_ipl1.
  match goal with
  | |- context [?k (after_kirk_ipl1 w)] =>
      assert (Hq : quiet k) by (cbv zeta; auto 30 with quiet)
  end.
  destruct (Hq (after_kirk_ipl1 w)) as (H1 & H2 & H3).
  destruct (after_kirk_ipl1_guards w) as (G1 & G2 & G3).
  repeat split; congruence.
Qed.

(** What one call does to the two statics and to the count of loads. *)
Lemma run_call_guards L c w :
  prx_kirk_initialized (run_call L c w) = prx_kirk_initialized w || is_decrypt_prx c /\
  ipl1_kirk_initialized (run_call L c w) = ipl1_kirk_initialized w || is_decrypt_ipl1 c /\
  kirk_loads (trace (run_call L c w))
  = (kirk_loads (trace w)
     + (if is_decrypt_prx c && negb (prx_kirk_initialized w) then 1 else 0)
     + (if is_decrypt_ipl1 c && negb (ipl1_kirk_initialized w) then 1 else 0))%nat.
Proof.
  destruct c; cbn [run_call is_decrypt_prx is_decrypt_ipl1 andb].
  - destruct (decrypt_prx_guards L data secure_id verbose w) as (H1 & H2 & H3).
    rewrite H1, H2, H3, orb_true_r, orb_false_r.
    destruct (prx_kirk_initialized w); cbn [negb]; repeat split; lia.
  - destruct (quiet_get_prx_info L data w) as (H1 & H2 & H3).
    rewrite H1, H2, H3, !orb_false_r. repeat split; lia.
  - destruct (decrypt_ipl1_guards L data verbose w) as (H1 & H2 & H3).
    rewrite H1, H2, H3, orb_true_r, orb_false_r.
    destruct (ipl1_kirk_initialized w); cbn [negb]; repeat split; lia.
  - destruct (quiet_linearize_ipl2 L data w) as (H1 & H2 & H3).
    rewrite H1, H2, H3, !orb_false_r. repeat split; lia.
  - destruct (quiet_decrypt_ipl3 L data w) as (H1 & H2 & H3).
    rewrite H1, H2, H3, !orb_false_r. repeat split; lia.
  - destruct (quiet_decompress L data max_size verbose w) as (H1 & H2 & H3).
    rewrite H1, H2, H3, !orb_false_r. repeat split; lia.
Qed.

Lemma run_calls_snoc L cs c w :
  run_calls L (cs ++ [c]) w = run_call L c (run_calls L cs w).
Proof. unfold run_calls. now rewrite fold_left_app. Qed.

(** The statics after a sequence of calls in a fresh process, and the
    loads so far. *)
Lemma run_calls_guards L cs :
  prx_kirk_initialized (run_calls L cs initial_world) = existsb is_decrypt_prx cs /\
  ipl1_kirk_initialized (run_calls L cs initial_world) = existsb is_decrypt_ipl1 cs /\
  loads L cs = ((if existsb is_decrypt_prx cs then 1 else 0)
                + (if existsb is_decrypt_ipl1 cs then 1 else 0))%nat.
Proof.
  unfold loads.
  induction cs as [| c cs IH] using rev_ind.
  - repeat split.
  - destruct IH as (I1 & I2 & I3).
    rewrite run_calls_snoc.
    destruct (run_call_guards L c (run_calls L cs initial_world)) as (H1 & H2 & H3).
    rewrite H1, H2, H3, I1, I2, I3, !existsb_app. cbn [existsb].
    rewrite !orb_false_r.
    repeat split.
    destruct (existsb is_decrypt_prx cs), (existsb is_decrypt_ipl1 cs),
      (is_decrypt_prx c), (is_decrypt_ipl1 c); reflexivity.
Qed.

(** C7 as stated fails when the first call of a process is [decompress]:
    the call returns its result and no load has happened. *)
Lemma first_call_without_load :
  snd (decompress (scripted gzip_script) gzip_input (-1) false initial_world)
  = Returned [x41; x42; x43] /\
  loads (scripted gzip_script) [Decompress gzip_input (-1) false] = 0%nat.
Proof. split; reflexivity. Qed.

(** The slip beside C7: the guards of [decrypt_prx] and [decrypt_ipl1] are
    two statics, so one call of each runs [kirk_init] twice. *)
Lemma two_guards_two_loads L data1 sid verbose1 data2 verbose2 :
  loads L [DecryptPrx data1 sid verbose1; DecryptIpl1 data2 verbose2] = 2%nat.
Proof.
  destruct (run_calls_guards L [DecryptPrx data1 sid verbose1; DecryptIpl1 data2 verbose2])
    as (_ & _ & H).
  exact H.
Qed.

(** C7, as the code has it.  In a sequence of calls made in a fresh
    process: [get_prx_info], [linearize_ipl2], [decrypt_ipl3] and
    [decompress] never run [kirk_init]; a call of [decrypt_prx] that follows
    an earlier call of [decrypt_prx] does not run it, nor does a call of
    [decrypt_ipl1] that follows an earlier call of [decrypt_ipl1]; and the
    first call of either, when neither has been called before, finds no load
    done and runs it exactly once. *)
Theorem kirk_init_once_per_guard L (pre : list api_call) (c : api_call) :
  (is_decrypt_prx c = false -> is_decrypt_ipl1 c = false ->
   loads L (pre ++ [c]) = loads L pre) /\
  (is_decrypt_prx c = true -> existsb is_decrypt_prx pre = true ->
   loads L (pre ++ [c]) = loads L pre) /\
  (is_decrypt_ipl1 c = true -> existsb is_decrypt_ipl1 pre = true ->
   loads L (pre ++ [c]) = loads L pre) /\
  (is_decrypt_prx c = true \/ is_decrypt_ipl1 c = true ->
   existsb is_decrypt_prx pre = false -> existsb is_decrypt_ipl1 pre = false ->
   loads L pre = 0%nat /\ loads L (pre ++ [c]) = 1%nat).
Proof.
  destruct (run_calls_guards L pre) as (_ & _ & Hpre).
  destruct (run_calls_guards L (pre ++ [c])) as (_ & _ & Hall).
  rewrite !existsb_app in Hall. cbn [existsb] in Hall. rewrite !orb_false_r in Hall.
  rewrite Hpre, Hall.
  assert (Hex : is_decrypt_prx c = true -> is_decrypt_ipl1 c = true -> False)
    by (destruct c; discriminate).
  repeat apply conj.
  - intros H1 H2. rewrite H1, H2, !orb_false_r. reflexivity.
  - intros H1 H2. rewrite H1, H2. cbn [orb].
    destruct (is_decrypt_ipl1 c) eqn:E; [now elim Hex | now rewrite orb_false_r].
  - intros H1 H2. rewrite H1, H2. cbn [orb].
    destruct (is_decrypt_prx c) eqn:E; [now elim Hex | now rewrite orb_false_r].
  - intros [H | H] H1 H2; rewrite H, H1, H2; cbn [orb].
    + destruct (is_decrypt_ipl1 c) eqn:E; [now elim Hex | auto].
    + destruct (is_decrypt_prx c) eqn:E; [now elim Hex | auto].
Qed.

(** A run of C7: [get_prx_info], then [decrypt_prx] twice. *)
Lemma kirk_init_once_per_guard_witness :
  loads (scripted zero_script)
        ([GetPrxInfo blank_header; DecryptPrx blank_header None false]
         ++ [DecryptPrx blank_header None true])
  = loads (scripted zero_script)
          [GetPrxInfo blank_header; DecryptPrx blank_header None false].
Proof.
  destruct (@kirk_init_once_per_guard (scripted zero_script)
              [GetPrxInfo blank_header; DecryptPrx blank_header None false]
              (DecryptPrx blank_header None true)) as (_ & H & _).
  apply H; reflexivity.
Defined.

(** * Further facts *)

(** ** The output buffer of [decrypt_prx] *)

Lemma align16_spec m :
  0 <= m < two32 ->
  to_u32 (to_u32 (m + 15) / 16 * 16) mod 16 = 0 /\
  (m <= two32 - 16 ->
   m <= to_u32 (to_u32 (m + 15) / 16 * 16) < m + 16) /\
  (two32 - 16 < m -> to_u32 (to_u32 (m + 15) / 16 * 16) = 0).
Proof.
  intros Hm. unfold to_u32, two32 in *.
  change (2 ^ 32) with 4294967296 in *.
  destruct (Z_le_gt_dec m (4294967296 - 16)) as [Hle | Hgt].
  - rewrite (Z.mod_small (m + 15)) by lia.
    assert (H16 : 0 <= (m + 15) / 16 * 16 <= m + 15).
    { pose proof (Z.mul_div_le (m + 15) 16). 
      pose proof (Z.div_pos (m + 15) 16). lia. }
    rewrite (Z.mod_small ((m + 15) / 16 * 16)) by lia.
    split; [apply Z.mod_mul; lia |].
    split; [| lia].
    intros _. pose proof (Z.mod_pos_bound (m + 15) 16).
    pose proof (Z.div_mod (m + 15) 16). lia.
  - replace ((m + 15) mod 4294967296) with (m + 15 - 4294967296)
      by (apply Z.mod_unique with (q := 1); lia).
    rewrite (Z.div_small (m + 15 - 4294967296)) by lia.
    repeat split; intros; lia.
Qed.

Lemma prx_max_range L data :
  0 <= Z.max (prx_psp_size L data) (prx_elf_size L data) < two32.
Proof.
  pose proof (to_u32_range (pspGetPspSize L data)).
  pose proof (to_u32_range (pspGetElfSize L data)).
  unfold prx_psp_size, prx_elf_size. lia.
Qed.

(** The trace of [decrypt_prx] up to the decryption, whatever follows. *)
Lemma decrypt_prx_allocates L data sid verbose w :
  PSP_HEADER_SIZE <= input_size_of data ->
  secure_id_ok sid ->
  In (AllocOutput (prx_capacity L data))
     (trace (fst (decrypt_prx L data sid verbose w))).
Proof.
  intros Hsize Hid.
  unfold decrypt_prx. rewrite bind_kirk_once_prx.
  fold (input_size_of data).
  destruct (Z.ltb_spec (input_size_of data) PSP_HEADER_SIZE); [lia |].
  rewrite (secure_id_accepted _ Hid).
  unfold store, py_bytes, print_log_if, substr1, py_print. run_m.
  fold (prx_psp_size L data). fold (prx_elf_size L data). fold (prx_capacity L data).
  split_run; cbn [fst]; rewrite ?in_record_events; cbn [In]; tauto.
Qed.

(** X1.  Lines 58 to 62: the output buffer [decrypt_prx] allocates is a
    multiple of 16 bytes; when the larger of [psp_size] and [elf_size] is at
    most 0xFFFFFFF0 it holds that many bytes and fewer than 16 more; when
    the larger is above 0xFFFFFFF0 the rounding wraps and the buffer has no
    bytes at all. *)
Theorem decrypt_prx_buffer_rounding L data sid verbose w
    (Hsize : PSP_HEADER_SIZE <= input_size_of data)
    (Hid : secure_id_ok sid) :
  In (AllocOutput (prx_capacity L data))
     (trace (fst (decrypt_prx L data sid verbose w))) /\
  prx_capacity L data mod 16 = 0 /\
  (Z.max (prx_psp_size L data) (prx_elf_size L data) <= two32 - 16 ->
   Z.max (prx_psp_size L data) (prx_elf_size L data) <= prx_capacity L data
   < Z.max (prx_psp_size L data) (prx_elf_size L data) + 16) /\
  (two32 - 16 < Z.max (prx_psp_size L data) (prx_elf_size L data) ->
   prx_capacity L data = 0).
Proof.
  split; [now apply decrypt_prx_allocates |].
  apply align16_spec. apply prx_max_range.
Qed.

(** A run of X1: [psp_size] 16 and [elf_size] 0xFFFFFFF0 on one side, and
    the capacity 0xFFFFFFF0. *)
Lemma decrypt_prx_buffer_rounding_witness :
  In (AllocOutput 4294967280)
     (trace (fst (decrypt_prx (scripted wrapped_script) blank_header None false
                              initial_world))).
Proof.
  assert (Hsize : PSP_HEADER_SIZE <= input_size_of blank_header)
    by (vm_compute; discriminate).
  destruct (@decrypt_prx_buffer_rounding (scripted wrapped_script) blank_header None
              false initial_world Hsize I) as [H _].
  exact H.
Defined.

(** What [decrypt_prx] does when the decryption writes more than the
    buffer holds. *)
Lemma decrypt_prx_overrun_run L data sid verbose w :
  PSP_HEADER_SIZE <= input_size_of data ->
  secure_id_ok sid ->
  (length (zeros (prx_capacity L data)) < length (prx_written L data sid verbose))%nat ->
  decrypt_prx L data sid verbose w =
  (record_events [Call CGetPspSize; Call CGetElfSize;
                  AllocOutput (prx_capacity L data); Call (CDecryptPRX sid verbose)]
                 (after_kirk_prx w),
   Undefined BufferOverrun).
Proof.
  intros Hsize Hid Hover.
  unfold decrypt_prx. rewrite bind_kirk_once_prx.
  fold (input_size_of data).
  destruct (Z.ltb_spec (input_size_of data) PSP_HEADER_SIZE); [lia |].
  rewrite (secure_id_accepted _ Hid). run_m.
  fold (prx_psp_size L data). fold (prx_elf_size L data). fold (prx_capacity L data).
  fold (prx_written L data sid verbose).
  unfold store.
  destruct (Nat.leb_spec (length (prx_written L data sid verbose))
                         (length (zeros (prx_capacity L data)))); [lia |].
  rewrite !record_events_app. reflexivity.
Qed.

(** X2.  Lines 58 to 65: the output buffer is sized from the header alone
    and [pspDecryptPRX] is not told its size; a decryption that writes more
    bytes than the rounded larger of [psp_size] and [elf_size] writes past
    the end of the buffer, and nothing after line 65 is reached. *)
Theorem decrypt_prx_overrun L data sid verbose w
    (Hsize : PSP_HEADER_SIZE <= input_size_of data)
    (Hid : secure_id_ok sid)
    (Hover : prx_capacity L data < Z.of_nat (length (prx_written L data sid verbose))) :
  decrypt_prx L data sid verbose w =
  (record_events [Call CGetPspSize; Call CGetElfSize;
                  AllocOutput (prx_capacity L data); Call (CDecryptPRX sid verbose)]
                 (after_kirk_prx w),
   Undefined BufferOverrun).
Proof.
  apply decrypt_prx_overrun_run; try assumption.
  assert (H0 : 0 <= prx_capacity L data) by apply to_u32_range.
  pose proof (@zeros_length _ H0). lia.
Qed.

(** A run of X2: a header that declares no bytes, four bytes decrypted. *)
Lemma decrypt_prx_overrun_witness :
  snd (decrypt_prx (scripted overrun_script) blank_header None false initial_world)
  = Undefined BufferOverrun.
Proof.
  assert (Hsize : PSP_HEADER_SIZE <= input_size_of blank_header)
    by (vm_compute; discriminate).
  assert (Hover : prx_capacity (scripted overrun_script) blank_header
                  < Z.of_nat (length (prx_written (scripted overrun_script)
                                                  blank_header None false)))
    by (vm_compute; reflexivity).
  rewrite (@decrypt_prx_overrun (scripted overrun_script) blank_header None false
             initial_world Hsize I Hover).
  reflexivity.
Defined.

(** ** Lengths of results *)

Lemma py_bytes_returned buf n w out :
  snd (py_bytes buf n w) = Returned out ->
  0 <= n <= Z.of_nat (length buf) /\
  out = firstn (Z.to_nat n) buf /\
  Z.of_nat (length out) = n.
Proof.
  unfold py_bytes.
  destruct (Z.ltb_spec n 0) as [| E0]; [discriminate |].
  destruct (Z.leb_spec n (Z.of_nat (length buf))) as [E1 |]; [| discriminate].
  cbn [ret snd]. intros H. injection H as <-.
  repeat split; try assumption.
  rewrite length_firstn. lia.
Qed.

Lemma print_log_if_returns verbose label log w w' o :
  print_log_if verbose label log w = (w', o) ->
  o = Returned tt \/ o = Thrown SubstrOutOfRange.
Proof.
  unfold print_log_if, substr1, py_print. run_m.
  destruct verbose; [destruct log |]; intros H; injection H as _ <-; auto.
Qed.

(** X3.  Whenever [decrypt_prx] returns bytes, their number is exactly the
    size [pspDecryptPRX] reported, or, when a decompression was accepted,
    exactly [elf_size], which is then also what the decoder reported. *)
Theorem decrypt_prx_result_length L data sid verbose w out
    (Hret : snd (decrypt_prx L data sid verbose w) = Returned out) :
  (Z.of_nat (length out) = prx_output_size L data sid verbose /\
   0 <= prx_output_size L data sid verbose) \/
  (Z.of_nat (length out) = prx_elf_size L data /\
   to_int (dec_ret (prx_decoded L data sid verbose)) = prx_elf_size L data /\
   4 <= prx_output_size L data sid verbose).
Proof.
  destruct (Z_lt_le_dec (input_size_of data) PSP_HEADER_SIZE) as [Hsmall | Hsize].
  { rewrite decrypt_prx_too_small in Hret by assumption. discriminate. }
  assert (Hid : secure_id_ok sid).
  { destruct sid as [s |]; [| exact I].
    destruct (Nat.eq_dec (length s) 16) as [E | N]; [exact E |].
    rewrite decrypt_prx_bad_secure_id in Hret by assumption. discriminate. }
  destruct (le_lt_dec (length (prx_written L data sid verbose))
                      (length (zeros (prx_capacity L data)))) as [Hfit | Hover].
  2:{ rewrite decrypt_prx_overrun_run in Hret by assumption. discriminate. }
  rewrite decrypt_prx_run in Hret by assumption. cbv zeta in Hret.
  destruct (Z.ltb_spec (prx_output_size L data sid verbose) 0) as [Hneg | Hpos];
    [discriminate |].
  destruct (Z.leb_spec 4 (prx_output_size L data sid verbose)) as [Hfour | Hshort].
  2:{ apply py_bytes_returned in Hret. left. tauto. }
  destruct (pspIsCompressed L (prx_output_buffer L data sid verbose) =? 0).
  { apply py_bytes_returned in Hret. left. tauto. }
  unfold bind at 1 in Hret. unfold store in Hret.
  destruct (length (dec_written (prx_decoded L data sid verbose))
            <=? length (zeros (prx_elf_size L data)))%nat; [| discriminate].
  cbn [ret] in Hret.
  assert (Helf : 0 <= prx_elf_size L data < two32) by apply to_u32_range.
  pose proof (to_int_range (dec_ret (prx_decoded L data sid verbose))) as Hrange.
  destruct (int_eq_u32 (to_int (dec_ret (prx_decoded L data sid verbose)))
                       (prx_elf_size L data)) eqn:Eacc; unfold bind in Hret.
  - destruct (print_log_if verbose "Decompression successful:"
                (dec_log (prx_decoded L data sid verbose)) _) as [w' o] eqn:Eprint.
    apply print_log_if_returns in Eprint.
    destruct Eprint as [-> | ->]; [| discriminate].
    apply py_bytes_returned in Hret. destruct Hret as (Hn & _ & Hlen).
    apply int_eq_u32_spec in Eacc; [| assumption | assumption].
    right. unfold two32 in *. lia.
  - destruct (print_log_if verbose "Decompression failed:"
                (dec_log (prx_decoded L data sid verbose)) _) as [w' o] eqn:Eprint.
    apply print_log_if_returns in Eprint.
    destruct Eprint as [-> | ->]; [| discriminate].
    apply py_bytes_returned in Hret. left. tauto.
Qed.

(** A run of X3: the compressed image, whose three decompressed bytes are
    what the header's [elf_size] says. *)
Lemma decrypt_prx_result_length_witness :
  (Z.of_nat (length [x41; x42; x43])
   = prx_output_size (scripted compressed_prx_script) blank_header None false /\
   0 <= prx_output_size (scripted compressed_prx_script) blank_header None false) \/
  (Z.of_nat (length [x41; x42; x43])
   = prx_elf_size (scripted compressed_prx_script) blank_header /\
   to_int (dec_ret (prx_decoded (scripted compressed_prx_script) blank_header None false))
   = prx_elf_size (scripted compressed_prx_script) blank_header /\
   4 <= prx_output_size (scripted compressed_prx_script) blank_header None false).
Proof.
  apply (@decrypt_prx_result_length (scripted compressed_prx_script) blank_header None
           false initial_world [x41; x42; x43]).
  vm_compute. reflexivity.
Defined.

(** ** Exceptions *)

(** [py::bytes] throws for a negative length only. *)
Lemma py_bytes_thrown buf n w e :
  snd (py_bytes buf n w) = Thrown e -> e = BytesNotAllocated /\ n < 0.
Proof.
  unfold py_bytes.
  destruct (Z.ltb_spec n 0) as [Hneg | Hpos].
  - intros H. injection H as <-. auto.
  - destruct (n <=? Z.of_nat (length buf)); discriminate.
Qed.

Lemma py_bytes_never_throws buf n w e :
  0 <= n -> snd (py_bytes buf n w) <> Thrown e.
Proof. intros H0 H. apply py_bytes_thrown in H. lia. Qed.

(** A length beyond the buffer: the read runs past its end. *)
Lemma py_bytes_beyond buf n w :
  Z.of_nat (length buf) < n -> py_bytes buf n w = (w, Undefined BadLength).
Proof.
  intros H. unfold py_bytes.
  destruct (Z.ltb_spec n 0); [lia |].
  destruct (Z.leb_spec n (Z.of_nat (length buf))); [lia | reflexivity].
Qed.

Lemma print_log_if_thrown verbose label log w w' e :
  print_log_if verbose label log w = (w', Thrown e) ->
  e = SubstrOutOfRange /\ verbose = true /\ log = EmptyString.
Proof.
  unfold print_log_if, substr1, py_print. run_m.
  destruct verbose; [destruct log |]; intros H; try discriminate.
  injection H as _ <-. auto.
Qed.

(** The exceptions of [decrypt_prx], each with what brings it about. *)
Lemma decrypt_prx_thrown L data sid verbose w e :
  snd (decrypt_prx L data sid verbose w) = Thrown e ->
  (e = TooSmall /\ input_size_of data < PSP_HEADER_SIZE) \/
  (e = SecureIdLength /\ PSP_HEADER_SIZE <= input_size_of data /\ ~ secure_id_ok sid) \/
  (e = PrxDecryptionFailed /\ PSP_HEADER_SIZE <= input_size_of data /\
   secure_id_ok sid /\ prx_output_size L data sid verbose < 0) \/
  (e = SubstrOutOfRange /\ PSP_HEADER_SIZE <= input_size_of data /\ verbose = true /\
   4 <= prx_output_size L data sid verbose /\
   dec_log (prx_decoded L data sid verbose) = EmptyString) \/
  (e = BytesNotAllocated /\ PSP_HEADER_SIZE <= input_size_of data /\
   4 <= prx_output_size L data sid verbose /\
   to_int (dec_ret (prx_decoded L data sid verbose)) < 0 /\
   to_int (dec_ret (prx_decoded L data sid verbose)) + two32 = prx_elf_size L data).
Proof.
  intros Hthrown.
  destruct (Z_lt_le_dec (input_size_of data) PSP_HEADER_SIZE) as [Hsmall | Hsize].
  { rewrite decrypt_prx_too_small in Hthrown by assumption.
    injection Hthrown as <-. auto. }
  assert (Hid : secure_id_ok sid \/ ~ secure_id_ok sid).
  { destruct sid as [s |]; [| left; exact I].
    destruct (Nat.eq_dec (length s) 16) as [E | N]; [left; exact E | right; exact N]. }
  destruct Hid as [Hid | Hbad].
  2:{ destruct sid as [s |]; [| now elim Hbad].
      rewrite decrypt_prx_bad_secure_id in Hthrown by assumption.
      injection Hthrown as <-. right. left. auto. }
  destruct (le_lt_dec (length (prx_written L data sid verbose))
                      (length (zeros (prx_capacity L data)))) as [Hfit | Hover].
  2:{ rewrite decrypt_prx_overrun_run in Hthrown by assumption. discriminate. }
  rewrite decrypt_prx_run in Hthrown by assumption. cbv zeta in Hthrown.
  destruct (Z.ltb_spec (prx_output_size L data sid verbose) 0) as [Hneg | Hpos].
  { injection Hthrown as <-. right. right. left. auto. }
  destruct (Z.leb_spec 4 (prx_output_size L data sid verbose)) as [Hfour | Hshort].
  2:{ exfalso. eapply py_bytes_never_throws; [exact Hpos | exact Hthrown]. }
  destruct (pspIsCompressed L (prx_output_buffer L data sid verbose) =? 0).
  { exfalso. eapply py_bytes_never_throws; [exact Hpos | exact Hthrown]. }
  unfold bind at 1 in Hthrown. unfold store in Hthrown.
  destruct (length (dec_written (prx_decoded L data sid verbose))
            <=? length (zeros (prx_elf_size L data)))%nat; [| discriminate].
  cbn [ret] in Hthrown.
  assert (Helf : 0 <= prx_elf_size L data < two32) by apply to_u32_range.
  pose proof (to_int_range (dec_ret (prx_decoded L data sid verbose))) as Hrange.
  right. right. right.
  destruct (int_eq_u32 (to_int (dec_ret (prx_decoded L data sid verbose)))
                       (prx_elf_size L data)) eqn:Eacc; unfold bind in Hthrown.
  - destruct (print_log_if verbose "Decompression successful:"
                (dec_log (prx_decoded L data sid verbose)) _) as [w' [[] | e' | f]] eqn:Eprint.
    + apply py_bytes_thrown in Hthrown. destruct Hthrown as [-> Hneg].
      apply int_eq_u32_spec in Eacc; [| assumption | assumption].
      right. repeat split; try assumption. lia.
    + injection Hthrown as <-. apply print_log_if_thrown in Eprint. left. tauto.
    + discriminate.
  - destruct (print_log_if verbose "Decompression failed:"
                (dec_log (prx_decoded L data sid verbose)) _) as [w' [[] | e' | f]] eqn:Eprint.
    + exfalso. eapply py_bytes_never_throws; [exact Hpos | exact Hthrown].
    + injection Hthrown as <-. apply print_log_if_thrown in Eprint. left. tauto.
    + discriminate.
Qed.

(** X4.  What brings about each exception that the statements of
    [decrypt_prx] throw.  "Too small" is thrown exactly for a size, as a
    [u32], below the header size; the secure ID's length error exactly for
    an input that passed that check with a secure ID that is not 16 bytes
    long.  "PRX decryption failed" is thrown only past both checks and for a
    negative result of [pspDecryptPRX], and for every such result when the
    decryption wrote within the buffer.  The out-of-range error of
    [substr(1)] is thrown only with [verbose] set, after a decryption of
    four bytes or more whose decoder left the log empty.  [py::bytes]
    refuses its length only after a decryption of four bytes or more whose
    decoder answered a negative value that line 78 took for [elf_size]. *)
Theorem decrypt_prx_exceptions L data sid verbose w :
  (snd (decrypt_prx L data sid verbose w) = Thrown TooSmall <->
   input_size_of data < PSP_HEADER_SIZE) /\
  (snd (decrypt_prx L data sid verbose w) = Thrown SecureIdLength <->
   PSP_HEADER_SIZE <= input_size_of data /\ ~ secure_id_ok sid) /\
  (snd (decrypt_prx L data sid verbose w) = Thrown PrxDecryptionFailed ->
   PSP_HEADER_SIZE <= input_size_of data /\ secure_id_ok sid /\
   prx_output_size L data sid verbose < 0) /\
  (PSP_HEADER_SIZE <= input_size_of data -> secure_id_ok sid ->
   (length (prx_written L data sid verbose)
    <= length (zeros (prx_capacity L data)))%nat ->
   prx_output_size L data sid verbose < 0 ->
   snd (decrypt_prx L data sid verbose w) = Thrown PrxDecryptionFailed) /\
  (snd (decrypt_prx L data sid verbose w) = Thrown SubstrOutOfRange ->
   verbose = true /\ 4 <= prx_output_size L data sid verbose /\
   dec_log (prx_decoded L data sid verbose) = EmptyString) /\
  (snd (decrypt_prx L data sid verbose w) = Thrown BytesNotAllocated ->
   4 <= prx_output_size L data sid verbose /\
   to_int (dec_ret (prx_decoded L data sid verbose)) < 0 /\
   to_int (dec_ret (prx_decoded L data sid verbose)) + two32 = prx_elf_size L data).
Proof.
  repeat apply conj.
  - intros H. apply decrypt_prx_thrown in H.
    destruct H as [[_ H] | [[H _] | [[H _] | [[H _] | [H _]]]]];
      [exact H | | | |]; discriminate.
  - intros H. now rewrite decrypt_prx_too_small.
  - intros H. apply decrypt_prx_thrown in H.
    destruct H as [[H _] | [[_ H] | [[H _] | [[H _] | [H _]]]]];
      [| exact H | | |]; discriminate.
  - intros [Hsize Hbad].
    destruct sid as [s |]; [| now elim Hbad].
    now rewrite decrypt_prx_bad_secure_id.
  - intros H. apply decrypt_prx_thrown in H.
    destruct H as [[H _] | [[H _] | [[_ H] | [[H _] | [H _]]]]];
      [| | exact H | |]; discriminate.
  - intros Hsize Hid Hfit Hneg. now apply decrypt_prx_negative_result_fails.
  - intros H. apply decrypt_prx_thrown in H.
    destruct H as [[H _] | [[H _] | [[H _] | [[_ H] | [H _]]]]];
      [| | | tauto |]; discriminate.
  - intros H. apply decrypt_prx_thrown in H.
    destruct H as [[H _] | [[H _] | [[H _] | [[H _] | [_ H]]]]];
      [| | | | tauto]; discriminate.
Qed.

(** A run of X4: the library finds no key and answers -1. *)
Lemma decrypt_prx_exceptions_witness :
  PSP_HEADER_SIZE <= input_size_of blank_header /\ secure_id_ok None /\
  prx_output_size (scripted failing_script) blank_header None false < 0.
Proof.
  destruct (@decrypt_prx_exceptions (scripted failing_script) blank_header None false
              initial_world) as (_ & _ & H & _).
  apply H. vm_compute. reflexivity.
Defined.

(** X5.  Lines 81 to 86 print [log_str.substr(1)] without the emptiness
    test that lines 166 and 234 make.  When the decrypted buffer (four bytes
    or more) sniffs as compressed and the decoder leaves the log empty, a
    call with [verbose] set throws the out-of-range error, whether or not
    the decompression was accepted. *)
Theorem decrypt_prx_verbose_empty_log L data sid w
    (Hsize : PSP_HEADER_SIZE <= input_size_of data)
    (Hid : secure_id_ok sid)
    (Hfit : (length (prx_written L data sid true)
             <= length (zeros (prx_capacity L data)))%nat)
    (Hfour : 4 <= prx_output_size L data sid true)
    (Hsniff : pspIsCompressed L (prx_output_buffer L data sid true) <> 0)
    (Hcap : Z.of_nat (length (dec_written (prx_decoded L data sid true)))
            <= prx_elf_size L data)
    (Hlog : dec_log (prx_decoded L data sid true) = EmptyString) :
  snd (decrypt_prx L data sid true w) = Thrown SubstrOutOfRange.
Proof.
  assert (Helf : 0 <= prx_elf_size L data) by apply to_u32_range.
  assert (Hzfit : (length (dec_written (prx_decoded L data sid true))
                   <= length (zeros (prx_elf_size L data)))%nat).
  { pose proof (@zeros_length (prx_elf_size L data)). lia. }
  rewrite decrypt_prx_run by assumption. cbv zeta.
  destruct (Z.ltb_spec (prx_output_size L data sid true) 0); [lia |].
  destruct (Z.leb_spec 4 (prx_output_size L data sid true)); [| lia].
  destruct (Z.eqb_spec (pspIsCompressed L (prx_output_buffer L data sid true)) 0);
    [contradiction |].
  unfold bind at 1. rewrite store_fits by exact Hzfit.
  rewrite Hlog.
  destruct (int_eq_u32 (to_int (dec_ret (prx_decoded L data sid true)))
                       (prx_elf_size L data)); reflexivity.
Qed.

(** A run of X5: the compressed image with a decoder that logs nothing. *)
Lemma decrypt_prx_verbose_empty_log_witness :
  snd (decrypt_prx (scripted silent_decoder_script) blank_header None true initial_world)
  = Thrown SubstrOutOfRange.
Proof.
  apply (@decrypt_prx_verbose_empty_log (scripted silent_decoder_script) blank_header
           None initial_world).
  - vm_compute. discriminate.
  - exact I.
  - vm_compute. lia.
  - vm_compute. discriminate.
  - vm_compute. discriminate.
  - vm_compute. discriminate.
  - reflexivity.
Defined.

(** ** The two size checks *)

Lemma decrypt_prx_too_small_iff L data sid verbose w :
  snd (decrypt_prx L data sid verbose w) = Thrown TooSmall
  <-> input_size_of data < PSP_HEADER_SIZE.
Proof.
  split.
  - intros H. apply decrypt_prx_thrown in H.
    destruct H as [[_ H] | [[H _] | [[H _] | [[H _] | [H _]]]]];
      [exact H | | | |]; discriminate.
  - intros H. now rewrite decrypt_prx_too_small.
Qed.

Lemma get_prx_info_too_small_iff L data w :
  snd (get_prx_info L data w) = Thrown TooSmall
  <-> Z.of_nat (length data) < PSP_HEADER_SIZE.
Proof.
  split.
  - intros H. destruct (Z_lt_le_dec (Z.of_nat (length data)) PSP_HEADER_SIZE) as [|Hbig];
      [assumption |].
    rewrite get_prx_info_run in H by assumption. discriminate.
  - intros H. now rewrite get_prx_info_too_small.
Qed.

(** X6.  [decrypt_prx] checks the input size after truncating it to a
    [u32] (line 35), [get_prx_info] checks it as a [size_t] (line 130).
    Whenever [decrypt_prx] does not throw "too small", [get_prx_info]
    succeeds on the same bytes; for inputs below 2^32 bytes the two checks
    agree; an input of 2^32 bytes or more whose size modulo 2^32 is below
    the header size is "too small" for [decrypt_prx] alone. *)
Theorem size_checks_compared L data sid verbose w :
  (snd (decrypt_prx L data sid verbose w) <> Thrown TooSmall ->
   snd (get_prx_info L data w) = Returned (info_of L data)) /\
  (Z.of_nat (length data) < two32 ->
   (snd (decrypt_prx L data sid verbose w) = Thrown TooSmall
    <-> snd (get_prx_info L data w) = Thrown TooSmall)) /\
  (two32 <= Z.of_nat (length data) ->
   input_size_of data < PSP_HEADER_SIZE ->
   snd (decrypt_prx L data sid verbose w) = Thrown TooSmall /\
   snd (get_prx_info L data w) = Returned (info_of L data)).
Proof.
  pose proof (input_size_le data) as Hle.
  split; [| split].
  - intros Hnot.
    destruct (Z_lt_le_dec (input_size_of data) PSP_HEADER_SIZE) as [Hsmall | Hsize].
    + elim Hnot. now apply decrypt_prx_too_small_iff.
    + rewrite get_prx_info_run by lia. reflexivity.
  - intros Hlen.
    rewrite decrypt_prx_too_small_iff, get_prx_info_too_small_iff.
    unfold input_size_of. rewrite to_u32_small by lia. tauto.
  - intros Hbig Hsmall. split.
    + now apply decrypt_prx_too_small_iff.
    + rewrite get_prx_info_run; [reflexivity |].
      unfold PSP_HEADER_SIZE, two32 in *. lia.
Qed.

Lemma four_gib_input_length : Z.of_nat (length four_gib_input) = 4294967296.
Proof.
  unfold four_gib_input. rewrite repeat_length, Z2Nat.id by lia. reflexivity.
Qed.

(** A run of X6: 2^32 zero bytes. *)
Lemma size_checks_compared_witness :
  snd (decrypt_prx (scripted failing_script) four_gib_input None false initial_world)
  = Thrown TooSmall /\
  snd (get_prx_info (scripted failing_script) four_gib_input initial_world)
  = Returned (info_of (scripted failing_script) four_gib_input).
Proof.
  destruct (@size_checks_compared (scripted failing_script) four_gib_input None false
              initial_world) as (_ & _ & H).
  apply H.
  - rewrite four_gib_input_length. reflexivity.
  - unfold input_size_of. rewrite four_gib_input_length. reflexivity.
Defined.

(** ** The three IPL stages *)

Lemma stored_zeros_length (written : bytes) sz :
  0 <= sz ->
  (length written <= length (zeros sz))%nat ->
  Z.of_nat (length (written ++ skipn (length written) (zeros sz))) = sz.
Proof.
  intros H0 Hfit. rewrite stored_length by exact Hfit. now apply zeros_length.
Qed.

Lemma stage_buffer_length data written :
  (length written <= length (zeros (input_size_of data)))%nat ->
  Z.of_nat (length (stage_buffer data written)) = input_size_of data.
Proof.
  intros Hfit. unfold stage_buffer.
  apply stored_zeros_length; [apply to_u32_range | exact Hfit].
Qed.

(** What [py::bytes] gives does not depend on the state. *)
Lemma py_bytes_split buf n w w' :
  py_bytes buf n w = (w, snd (py_bytes buf n w')).
Proof.
  unfold py_bytes. destruct (n <? 0); [reflexivity |].
  destruct (n <=? Z.of_nat (length buf)); reflexivity.
Qed.

(** Lines 153 to 170 past the test of line 162. *)
Lemma decrypt_ipl1_positive_run L data verbose w :
  (length (ipl1_written L data) <= length (zeros (input_size_of data)))%nat ->
  0 < ipl1_answer L data ->
  snd (decrypt_ipl1 L data verbose w)
  = snd (py_bytes (stage_buffer data (ipl1_written L data)) (ipl1_answer L data) w).
Proof.
  unfold ipl1_written, ipl1_answer, stage_buffer. intros Hfit Hpos.
  unfold decrypt_ipl1. rewrite bind_kirk_once_ipl1. run_m.
  fold (input_size_of data).
  destruct (pspDecryptIPL1 L data (input_size_of data)) as [[r written] log].
  cbn [fst snd] in *.
  rewrite store_fits by exact Hfit.
  destruct (Z.leb_spec (to_int r) 0); [lia |].
  run_m. rewrite print_nonempty_log_run.
  rewrite (py_bytes_split _ _ _ w). reflexivity.
Qed.

(** Lines 176 to 189 past the test of line 184. *)
Lemma linearize_ipl2_positive_run L data w :
  (length (ipl2_written L data) <= length (zeros (input_size_of data)))%nat ->
  0 < ipl2_answer L data ->
  snd (linearize_ipl2 L data w)
  = match snd (py_bytes (stage_buffer data (ipl2_written L data))
                        (ipl2_answer L data) w) with
    | Returned out => Returned (out, ipl2_start L data)
    | Thrown e => Thrown e
    | Undefined f => Undefined f
    end.
Proof.
  unfold ipl2_written, ipl2_answer, ipl2_start, stage_buffer. intros Hfit Hpos.
  unfold linearize_ipl2. run_m.
  fold (input_size_of data).
  destruct (pspLinearizeIPL2 L data (input_size_of data)) as [[r written] a].
  cbn [fst snd] in *.
  rewrite store_fits by exact Hfit.
  destruct (Z.leb_spec (to_int r) 0); [lia |].
  run_m. rewrite (py_bytes_split _ _ _ w).
  destruct (snd (py_bytes _ _ w)); reflexivity.
Qed.

(** Lines 195 to 206 past the test of line 202. *)
Lemma decrypt_ipl3_positive_run L data w :
  (length (ipl3_written L data) <= length (zeros (input_size_of data)))%nat ->
  0 < ipl3_answer L data ->
  snd (decrypt_ipl3 L data w)
  = snd (py_bytes (stage_buffer data (ipl3_written L data)) (ipl3_answer L data) w).
Proof.
  unfold ipl3_written, ipl3_answer, stage_buffer. intros Hfit Hpos.
  unfold decrypt_ipl3. run_m.
  fold (input_size_of data).
  destruct (pspDecryptIPL3 L data (input_size_of data)) as [r written].
  cbn [fst snd] in *.
  rewrite store_fits by exact Hfit.
  destruct (Z.leb_spec (to_int r) 0); [lia |].
  run_m. rewrite (py_bytes_split _ _ _ w). reflexivity.
Qed.

(** X7.  Each IPL stage gives its routine a buffer of the size of its
    input (lines 157, 179 and 198) and builds its result from the length
    the routine reports, which it compares with 0 and with nothing else.
    When the routine has written within the buffer and reports between 1
    byte and the size of the input, the stage returns that many bytes from
    the head of the buffer ([linearize_ipl2] with the start address as a
    [u32]); when it reports more than the size of the input, [py::bytes]
    reads past the end of the buffer. *)
Theorem ipl_stage_trusts_length L data :
  (forall verbose w,
     (length (ipl1_written L data) <= length (zeros (input_size_of data)))%nat ->
     (1 <= ipl1_answer L data <= input_size_of data ->
      snd (decrypt_ipl1 L data verbose w)
      = Returned (firstn (Z.to_nat (ipl1_answer L data))
                         (stage_buffer data (ipl1_written L data)))) /\
     (input_size_of data < ipl1_answer L data ->
      snd (decrypt_ipl1 L data verbose w) = Undefined BadLength)) /\
  (forall w,
     (length (ipl2_written L data) <= length (zeros (input_size_of data)))%nat ->
     (1 <= ipl2_answer L data <= input_size_of data ->
      snd (linearize_ipl2 L data w)
      = Returned (firstn (Z.to_nat (ipl2_answer L data))
                         (stage_buffer data (ipl2_written L data)),
                  ipl2_start L data)) /\
     (input_size_of data < ipl2_answer L data ->
      snd (linearize_ipl2 L data w) = Undefined BadLength)) /\
  (forall w,
     (length (ipl3_written L data) <= length (zeros (input_size_of data)))%nat ->
     (1 <= ipl3_answer L data <= input_size_of data ->
      snd (decrypt_ipl3 L data w)
      = Returned (firstn (Z.to_nat (ipl3_answer L data))
                         (stage_buffer data (ipl3_written L data)))) /\
     (input_size_of data < ipl3_answer L data ->
      snd (decrypt_ipl3 L data w) = Undefined BadLength)) .
Proof.
  assert (H0 : 0 <= input_size_of data) by apply to_u32_range.
  split; [| split].
  - intros verbose w Hfit.
    pose proof (stage_buffer_length data _ Hfit) as Hlen.
    split; intros Hn.
    + rewrite decrypt_ipl1_positive_run by (assumption || lia).
      rewrite py_bytes_fits by lia. reflexivity.
    + rewrite decrypt_ipl1_positive_run by (assumption || lia).
      rewrite py_bytes_beyond by lia. reflexivity.
  - intros w Hfit.
    pose proof (stage_buffer_length data _ Hfit) as Hlen.
    split; intros Hn.
    + rewrite linearize_ipl2_positive_run by (assumption || lia).
      rewrite py_bytes_fits by lia. reflexivity.
    + rewrite linearize_ipl2_positive_run by (assumption || lia).
      rewrite py_bytes_beyond by lia. reflexivity.
  - intros w Hfit.
    pose proof (stage_buffer_length data _ Hfit) as Hlen.
    split; intros Hn.
    + rewrite decrypt_ipl3_positive_run by (assumption || lia).
      rewrite py_bytes_fits by lia. reflexivity.
    + rewrite decrypt_ipl3_positive_run by (assumption || lia).
      rewrite py_bytes_beyond by lia. reflexivity.
Qed.

(** A run of X7: stage 1 on the four bytes of [gzip_input], with a routine
    that reports nine bytes. *)
Lemma ipl_stage_trusts_length_witness :
  snd (decrypt_ipl1 (scripted boastful_script) gzip_input false initial_world)
  = Undefined BadLength.
Proof.
  destruct (@ipl_stage_trusts_length (scripted boastful_script) gzip_input) as [H _].
  assert (Hfit : (length (ipl1_written (scripted boastful_script) gzip_input)
                  <= length (zeros (input_size_of gzip_input)))%nat)
    by (vm_compute; lia).
  destruct (H false initial_world Hfit) as [_ Hbeyond].
  apply Hbeyond. vm_compute. reflexivity.
Defined.

Lemma decrypt_ipl1_thrown L data verbose w e :
  snd (decrypt_ipl1 L data verbose w) = Thrown e ->
  e = Ipl1Failed /\ to_int (fst (fst (pspDecryptIPL1 L data (input_size_of data)))) <= 0.
Proof.
  unfold decrypt_ipl1. rewrite bind_kirk_once_ipl1. run_m.
  fold (input_size_of data).
  destruct (pspDecryptIPL1 L data (input_size_of data)) as [[r written] log].
  cbn [fst]. unfold store.
  destruct (length written <=? length (zeros (input_size_of data)))%nat;
    [| discriminate].
  run_m.
  destruct (Z.leb_spec (to_int r) 0) as [Hle | Hpos].
  - intros H. injection H as <-. auto.
  - run_m. rewrite print_nonempty_log_run. intros H.
    exfalso. eapply py_bytes_never_throws; [| exact H]. lia.
Qed.

Lemma linearize_ipl2_thrown L data w e :
  snd (linearize_ipl2 L data w) = Thrown e ->
  e = Ipl2Failed /\ to_int (fst (fst (pspLinearizeIPL2 L data (input_size_of data)))) <= 0.
Proof.
  unfold linearize_ipl2. run_m.
  fold (input_size_of data).
  destruct (pspLinearizeIPL2 L data (input_size_of data)) as [[r written] a].
  cbn [fst]. unfold store.
  destruct (length written <=? length (zeros (input_size_of data)))%nat;
    [| discriminate].
  run_m.
  destruct (Z.leb_spec (to_int r) 0) as [Hle | Hpos].
  - intros H. injection H as <-. auto.
  - run_m. unfold py_bytes.
    destruct (Z.ltb_spec (to_int r) 0); [lia |].
    destruct (to_int r <=? _); discriminate.
Qed.

Lemma decrypt_ipl3_thrown L data w e :
  snd (decrypt_ipl3 L data w) = Thrown e ->
  e = Ipl3Failed /\ to_int (fst (pspDecryptIPL3 L data (input_size_of data))) <= 0.
Proof.
  unfold decrypt_ipl3. run_m.
  fold (input_size_of data).
  destruct (pspDecryptIPL3 L data (input_size_of data)) as [r written].
  cbn [fst]. unfold store.
  destruct (length written <=? length (zeros (input_size_of data)))%nat;
    [| discriminate].
  run_m.
  destruct (Z.leb_spec (to_int r) 0) as [Hle | Hpos].
  - intros H. injection H as <-. auto.
  - run_m. intros H. exfalso. eapply py_bytes_never_throws; [| exact H]. lia.
Qed.

Lemma decrypt_ipl1_failure_run L data verbose w :
  to_int (fst (fst (pspDecryptIPL1 L data (input_size_of data)))) <= 0 ->
  (length (snd (fst (pspDecryptIPL1 L data (input_size_of data))))
   <= length (zeros (input_size_of data)))%nat ->
  decrypt_ipl1 L data verbose w =
  (record_events [AllocOutput (input_size_of data); Call CDecryptIPL1]
                 (after_kirk_ipl1 w),
   Thrown Ipl1Failed).
Proof.
  intros Hle Hfit.
  unfold decrypt_ipl1. rewrite bind_kirk_once_ipl1. run_m.
  fold (input_size_of data).
  destruct (pspDecryptIPL1 L data (input_size_of data)) as [[r written] log].
  cbn [fst snd] in Hle, Hfit.
  rewrite store_fits by exact Hfit.
  destruct (Z.leb_spec (to_int r) 0); [| lia].
  rewrite !record_events_app. reflexivity.
Qed.

Lemma linearize_ipl2_failure_run L data w :
  to_int (fst (fst (pspLinearizeIPL2 L data (input_size_of data)))) <= 0 ->
  (length (snd (fst (pspLinearizeIPL2 L data (input_size_of data))))
   <= length (zeros (input_size_of data)))%nat ->
  linearize_ipl2 L data w =
  (record_events [AllocOutput (input_size_of data); Call CLinearizeIPL2] w,
   Thrown Ipl2Failed).
Proof.
  intros Hle Hfit.
  unfold linearize_ipl2. run_m.
  fold (input_size_of data).
  destruct (pspLinearizeIPL2 L data (input_size_of data)) as [[r written] a].
  cbn [fst snd] in Hle, Hfit.
  rewrite store_fits by exact Hfit.
  destruct (Z.leb_spec (to_int r) 0); [| lia].
  rewrite !record_events_app. reflexivity.
Qed.

Lemma decrypt_ipl3_failure_run L data w :
  to_int (fst (pspDecryptIPL3 L data (input_size_of data))) <= 0 ->
  (length (snd (pspDecryptIPL3 L data (input_size_of data)))
   <= length (zeros (input_size_of data)))%nat ->
  decrypt_ipl3 L data w =
  (record_events [AllocOutput (input_size_of data); Call CDecryptIPL3] w,
   Thrown Ipl3Failed).
Proof.
  intros Hle Hfit.
  unfold decrypt_ipl3. run_m.
  fold (input_size_of data).
  destruct (pspDecryptIPL3 L data (input_size_of data)) as [r written].
  cbn [fst snd] in Hle, Hfit.
  rewrite store_fits by exact Hfit.
  destruct (Z.leb_spec (to_int r) 0); [| lia].
  rewrite !record_events_app. reflexivity.
Qed.

(** X9.  Each IPL stage throws one exception only, its own, and exactly
    for a result of its routine that is zero or negative (lines 162, 184
    and 202), the routine having written within the buffer; the failing
    call has allocated its buffer and called its routine, and printed
    nothing, [decrypt_ipl1] dropping the log even with [verbose] set. *)
Theorem ipl_stage_failures L data :
  (forall verbose w,
     (forall e, snd (decrypt_ipl1 L data verbose w) = Thrown e ->
                e = Ipl1Failed /\
                to_int (fst (fst (pspDecryptIPL1 L data (input_size_of data)))) <= 0) /\
     (to_int (fst (fst (pspDecryptIPL1 L data (input_size_of data)))) <= 0 ->
      (length (snd (fst (pspDecryptIPL1 L data (input_size_of data))))
       <= length (zeros (input_size_of data)))%nat ->
      decrypt_ipl1 L data verbose w =
      (record_events [AllocOutput (input_size_of data); Call CDecryptIPL1]
                     (after_kirk_ipl1 w),
       Thrown Ipl1Failed))) /\
  (forall w,
     (forall e, snd (linearize_ipl2 L data w) = Thrown e ->
                e = Ipl2Failed /\
                to_int (fst (fst (pspLinearizeIPL2 L data (input_size_of data)))) <= 0) /\
     (to_int (fst (fst (pspLinearizeIPL2 L data (input_size_of data)))) <= 0 ->
      (length (snd (fst (pspLinearizeIPL2 L data (input_size_of data))))
       <= length (zeros (input_size_of data)))%nat ->
      linearize_ipl2 L data w =
      (record_events [AllocOutput (input_size_of data); Call CLinearizeIPL2] w,
       Thrown Ipl2Failed))) /\
  (forall w,
     (forall e, snd (decrypt_ipl3 L data w) = Thrown e ->
                e = Ipl3Failed /\
                to_int (fst (pspDecryptIPL3 L data (input_size_of data))) <= 0) /\
     (to_int (fst (pspDecryptIPL3 L data (input_size_of data))) <= 0 ->
      (length (snd (pspDecryptIPL3 L data (input_size_of data)))
       <= length (zeros (input_size_of data)))%nat ->
      decrypt_ipl3 L data w =
      (record_events [AllocOutput (input_size_of data); Call CDecryptIPL3] w,
       Thrown Ipl3Failed))).
Proof.
  split; [| split]; intros; split.
  - intros e. apply decrypt_ipl1_thrown.
  - apply decrypt_ipl1_failure_run.
  - intros e. apply linearize_ipl2_thrown.
  - apply linearize_ipl2_failure_run.
  - intros e. apply decrypt_ipl3_thrown.
  - apply decrypt_ipl3_failure_run.
Qed.

(** A run of X9: stage 1 with [verbose] set and a routine that answers 0. *)
Lemma ipl_stage_failures_witness :
  decrypt_ipl1 (scripted zero_script) gzip_input true initial_world =
  (record_events [AllocOutput (input_size_of gzip_input); Call CDecryptIPL1]
                 (after_kirk_ipl1 initial_world),
   Thrown Ipl1Failed).
Proof.
  destruct (@ipl_stage_failures (scripted zero_script) gzip_input) as [H _].
  destruct (H true initial_world) as [_ Hfail].
  apply Hfail.
  - vm_compute. discriminate.
  - vm_compute. lia.
Defined.

(** ** Initialisation, over whole sequences *)

Lemma existsb_length A (p : A -> bool) (l : list A) :
  existsb p l = true -> (1 <= length l)%nat.
Proof. destruct l; [discriminate | simpl; lia]. Qed.

Lemma two_kinds_two_calls (cs : list api_call) :
  existsb is_decrypt_prx cs = true -> existsb is_decrypt_ipl1 cs = true ->
  (2 <= length cs)%nat.
Proof.
  destruct cs as [| c [| c' cs]]; try discriminate.
  - cbn [existsb]. rewrite !orb_false_r. destruct c; discriminate.
  - intros _ _. simpl. lia.
Qed.

(** X10.  However many calls a process makes, with whatever inputs and
    whether they return or throw, [kirk_init] runs once if [decrypt_prx] is
    among them, once more if [decrypt_ipl1] is among them, and not
    otherwise: never more than twice, and never more often than there were
    calls. *)
Theorem kirk_init_at_most_twice L (cs : list api_call) :
  loads L cs = ((if existsb is_decrypt_prx cs then 1 else 0)
                + (if existsb is_decrypt_ipl1 cs then 1 else 0))%nat /\
  (loads L cs <= 2)%nat /\
  (loads L cs <= length cs)%nat.
Proof.
  destruct (run_calls_guards L cs) as (_ & _ & H).
  split; [exact H |]. rewrite H.
  destruct (existsb is_decrypt_prx cs) eqn:E1, (existsb is_decrypt_ipl1 cs) eqn:E2;
    cbn [Nat.add]; split; try lia.
  - now apply two_kinds_two_calls.
  - now apply existsb_length in E1.
  - now apply existsb_length in E2.
Qed.

(** ** Prints *)

Lemma printed_app t1 t2 : printed (t1 ++ t2) = (printed t1 + printed t2)%nat.
Proof. unfold printed. now rewrite filter_app, length_app. Qed.

Lemma printed_record_events evs w :
  printed (trace (record_events evs w)) = (printed (trace w) + printed evs)%nat.
Proof. unfold record_events. cbn [trace]. apply printed_app. Qed.

Lemma printed_after_kirk_prx w : printed (trace (after_kirk_prx w)) = printed (trace w).
Proof.
  unfold after_kirk_prx. destruct (prx_kirk_initialized w); [reflexivity |].
  cbn [set_prx_kirk_initialized trace]. rewrite printed_record_events.
  cbn. lia.
Qed.

Lemma printed_after_kirk_ipl1 w : printed (trace (after_kirk_ipl1 w)) = printed (trace w).
Proof.
  unfold after_kirk_ipl1. destruct (ipl1_kirk_initialized w); [reflexivity |].
  cbn [set_ipl1_kirk_initialized trace]. rewrite printed_record_events.
  cbn. lia.
Qed.

(** Counts the prints at the end of a run that [split_run] has taken
    apart. *)
Ltac count_prints :=
  cbn [fst]; rewrite ?printed_record_events, ?printed_after_kirk_prx,
                     ?printed_after_kirk_ipl1;
  cbn [printed filter is_print length]; try lia; try (intros; discriminate).

Lemma decrypt_prx_prints L data sid verbose w :
  (printed (trace w) <= printed (trace (fst (decrypt_prx L data sid verbose w)))
   <= printed (trace w) + 1)%nat /\
  (verbose = false ->
   printed (trace (fst (decrypt_prx L data sid verbose w))) = printed (trace w)).
Proof.
  split; [| intros ->]; unfold decrypt_prx; rewrite !bind_kirk_once_prx;
    unfold_run; split_run; count_prints.
Qed.

Lemma decrypt_ipl1_prints L data verbose w :
  (printed (trace w) <= printed (trace (fst (decrypt_ipl1 L data verbose w)))
   <= printed (trace w) + 1)%nat /\
  (verbose = false ->
   printed (trace (fst (decrypt_ipl1 L data verbose w))) = printed (trace w)).
Proof.
  split; [| intros ->]; unfold decrypt_ipl1; rewrite !bind_kirk_once_ipl1;
    unfold_run; cbn [andb]; split_run; count_prints.
Qed.

Lemma decompress_prints L data max_size verbose w :
  (printed (trace w) <= printed (trace (fst (decompress L data max_size verbose w)))
   <= printed (trace w) + 1)%nat /\
  (verbose = false ->
   printed (trace (fst (decompress L data max_size verbose w))) = printed (trace w)).
Proof.
  split; [| intros ->]; unfold decompress; unfold_run; cbn [andb];
    split_run; count_prints.
Qed.

Lemma get_prx_info_prints L data w :
  printed (trace (fst (get_prx_info L data w))) = printed (trace w).
Proof. unfold get_prx_info. unfold_run. split_run; count_prints. Qed.

Lemma linearize_ipl2_prints L data w :
  printed (trace (fst (linearize_ipl2 L data w))) = printed (trace w).
Proof. unfold linearize_ipl2. unfold_run. split_run; count_prints. Qed.

Lemma decrypt_ipl3_prints L data w :
  printed (trace (fst (decrypt_ipl3 L data w))) = printed (trace w).
Proof. unfold decrypt_ipl3. unfold_run. split_run; count_prints. Qed.

(** X11.  A call prints at most one line, and only [decrypt_prx],
    [decrypt_ipl1] and [decompress] called with [verbose] set ever print:
    with [verbose] clear they print nothing, and [get_prx_info],
    [linearize_ipl2] and [decrypt_ipl3] never print. *)
Theorem prints_follow_verbose L data :
  (forall sid verbose w,
     (printed (trace w) <= printed (trace (fst (decrypt_prx L data sid verbose w)))
      <= printed (trace w) + 1)%nat /\
     (verbose = false ->
      printed (trace (fst (decrypt_prx L data sid verbose w))) = printed (trace w))) /\
  (forall verbose w,
     (printed (trace w) <= printed (trace (fst (decrypt_ipl1 L data verbose w)))
      <= printed (trace w) + 1)%nat /\
     (verbose = false ->
      printed (trace (fst (decrypt_ipl1 L data verbose w))) = printed (trace w))) /\
  (forall max_size verbose w,
     (printed (trace w) <= printed (trace (fst (decompress L data max_size verbose w)))
      <= printed (trace w) + 1)%nat /\
     (verbose = false ->
      printed (trace (fst (decompress L data max_size verbose w))) = printed (trace w))) /\
  (forall w, printed (trace (fst (get_prx_info L data w))) = printed (trace w)) /\
  (forall w, printed (trace (fst (linearize_ipl2 L data w))) = printed (trace w)) /\
  (forall w, printed (trace (fst (decrypt_ipl3 L data w))) = printed (trace w)).
Proof.
  repeat apply conj; intros.
  - apply decrypt_prx_prints.
  - apply decrypt_ipl1_prints.
  - apply decompress_prints.
  - apply get_prx_info_prints.
  - apply linearize_ipl2_prints.
  - apply decrypt_ipl3_prints.
Qed.

(** ** Outcomes of [decompress] *)

Lemma decompress_input_length data :
  Z.of_nat (length (decompress_input data)) = input_size_of data.
Proof.
  unfold decompress_input. rewrite length_firstn.
  pose proof (input_size_le data). pose proof (to_u32_range (Z.of_nat (length data))).
  unfold input_size_of in *. lia.
Qed.

Lemma decompress_returned L data max_size verbose w out :
  snd (decompress L data max_size verbose w) = Returned out ->
  pspIsCompressed L (decompress_input data) <> 0 /\
  Z.of_nat (length out)
  = to_int (dec_ret (pspDecompress L (decompress_input data) (input_size_of data)
                       (decompress_capacity max_size (input_size_of data)))).
Proof.
  pose proof (decompress_capacity_nonneg max_size (input_size_of data)) as Hcap.
  unfold decompress. run_m.
  fold (input_size_of data). fold (decompress_input data).
  destruct (Z.eqb_spec (pspIsCompressed L (decompress_input data)) 0) as [| Hsniff];
    [discriminate |].
  unfold store.
  destruct (Nat.leb_spec
              (length (dec_written (pspDecompress L (decompress_input data)
                 (input_size_of data)
                 (decompress_capacity max_size (input_size_of data)))))
              (length (zeros (decompress_capacity max_size (input_size_of data)))))
    as [Hfit |]; [| discriminate].
  run_m.
  destruct (Z.ltb_spec (to_int (dec_ret (pspDecompress L (decompress_input data)
                 (input_size_of data)
                 (decompress_capacity max_size (input_size_of data))))) 0);
    [discriminate |].
  run_m. rewrite print_nonempty_log_run. intros Hret.
  apply py_bytes_returned in Hret. destruct Hret as (Hn & _ & Hlen).
  split; assumption.
Qed.

(** Lines 230 to 238 on an answer of 0. *)
Lemma decompress_zero_answer L data max_size verbose w :
  pspIsCompressed L (decompress_input data) <> 0 ->
  (length (dec_written (pspDecompress L (decompress_input data) (input_size_of data)
                          (decompress_capacity max_size (input_size_of data))))
   <= length (zeros (decompress_capacity max_size (input_size_of data))))%nat ->
  to_int (dec_ret (pspDecompress L (decompress_input data) (input_size_of data)
                     (decompress_capacity max_size (input_size_of data)))) = 0 ->
  snd (decompress L data max_size verbose w) = Returned [].
Proof.
  intros Hsniff Hfit Hzero.
  unfold decompress. run_m.
  fold (input_size_of data). fold (decompress_input data).
  destruct (Z.eqb_spec (pspIsCompressed L (decompress_input data)) 0);
    [contradiction |].
  rewrite store_fits by exact Hfit. rewrite Hzero. cbn [Z.ltb Z.compare].
  rewrite print_nonempty_log_run.
  rewrite py_bytes_fits by lia. reflexivity.
Qed.

Lemma decompress_thrown L data max_size verbose w e :
  snd (decompress L data max_size verbose w) = Thrown e ->
  (e = NotCompressed /\ pspIsCompressed L (decompress_input data) = 0) \/
  (e = DecompressionFailed
         (dec_log (pspDecompress L (decompress_input data) (input_size_of data)
                     (decompress_capacity max_size (input_size_of data)))) /\
   pspIsCompressed L (decompress_input data) <> 0 /\
   to_int (dec_ret (pspDecompress L (decompress_input data) (input_size_of data)
                      (decompress_capacity max_size (input_size_of data)))) < 0).
Proof.
  unfold decompress. run_m.
  fold (input_size_of data). fold (decompress_input data).
  destruct (Z.eqb_spec (pspIsCompressed L (decompress_input data)) 0) as [Hno | Hsniff].
  { intros H. injection H as <-. auto. }
  unfold store.
  destruct (length (dec_written (pspDecompress L (decompress_input data)
                 (input_size_of data)
                 (decompress_capacity max_size (input_size_of data))))
            <=? length (zeros (decompress_capacity max_size (input_size_of data))))%nat;
    [| discriminate].
  run_m.
  destruct (Z.ltb_spec (to_int (dec_ret (pspDecompress L (decompress_input data)
                 (input_size_of data)
                 (decompress_capacity max_size (input_size_of data))))) 0)
    as [Hneg | Hpos].
  { intros H. injection H as <-. auto. }
  run_m. rewrite print_nonempty_log_run. intros H.
  exfalso. eapply py_bytes_never_throws; [exact Hpos | exact H].
Qed.

(** X12.  What [decompress] gives back, read off the decoder's answer.
    Bytes are returned only for an input that sniffs as compressed, and
    their number is the decoder's answer.  An answer of 0, from a decoder
    that wrote within the buffer, gives the empty byte string, not an error
    (line 230 tests [output_size < 0]).  The exceptions thrown are "not
    compressed", for an input the sniff rejects, and "Decompression failed",
    for a negative answer, with the decoder's whole log in its message; the
    guarded print of line 234 never throws. *)
Theorem decompress_outcomes L data max_size verbose w :
  (forall out,
     snd (decompress L data max_size verbose w) = Returned out ->
     pspIsCompressed L (decompress_input data) <> 0 /\
     Z.of_nat (length out)
     = to_int (dec_ret (pspDecompress L (decompress_input data) (input_size_of data)
                          (decompress_capacity max_size (input_size_of data))))) /\
  (pspIsCompressed L (decompress_input data) <> 0 ->
   (length (dec_written (pspDecompress L (decompress_input data) (input_size_of data)
                           (decompress_capacity max_size (input_size_of data))))
    <= length (zeros (decompress_capacity max_size (input_size_of data))))%nat ->
   to_int (dec_ret (pspDecompress L (decompress_input data) (input_size_of data)
                      (decompress_capacity max_size (input_size_of data)))) = 0 ->
   snd (decompress L data max_size verbose w) = Returned []) /\
  (forall e,
     snd (decompress L data max_size verbose w) = Thrown e ->
     (e = NotCompressed /\ pspIsCompressed L (decompress_input data) = 0) \/
     (e = DecompressionFailed
            (dec_log (pspDecompress L (decompress_input data) (input_size_of data)
                        (decompress_capacity max_size (input_size_of data)))) /\
      pspIsCompressed L (decompress_input data) <> 0 /\
      to_int (dec_ret (pspDecompress L (decompress_input data) (input_size_of data)
                         (decompress_capacity max_size (input_size_of data)))) < 0)).
Proof.
  split; [| split].
  - intros out. apply decompress_returned.
  - apply decompress_zero_answer.
  - intros e. apply decompress_thrown.
Qed.

(** A run of X12: a decoder that answers 0 on the GZIP magic. *)
Lemma decompress_outcomes_witness :
  snd (decompress (scripted zero_script) gzip_input (-1) true initial_world)
  = Returned [].
Proof.
  destruct (@decompress_outcomes (scripted zero_script) gzip_input (-1) true
              initial_world) as (_ & H & _).
  apply H.
  - vm_compute. discriminate.
  - vm_compute. lia.
  - vm_compute. reflexivity.
Defined.

(** X13.  Line 223 takes [max_size] as a cap only when it is positive:
    0 and every negative value ask for the default capacity alike, so no
    call can ask for a cap of zero bytes. *)
Theorem decompress_nonpositive_max_size L data m1 m2 verbose w
    (H1 : m1 <= 0) (H2 : m2 <= 0) :
  decompress L data m1 verbose w = decompress L data m2 verbose w /\
  decompress_capacity m1 (input_size_of data) = to_u32 (input_size_of data * 10).
Proof.
  assert (E : forall m, m <= 0 ->
                decompress_capacity m (input_size_of data)
                = to_u32 (input_size_of data * 10)).
  { intros m Hm. unfold decompress_capacity.
    destruct (Z.ltb_spec 0 m); [lia | reflexivity]. }
  split; [| now apply E].
  unfold decompress. fold (input_size_of data). cbv zeta.
  rewrite (E m1 H1), (E m2 H2). reflexivity.
Qed.

(** A run of X13: a cap of 0 and the default of -1. *)
Lemma decompress_nonpositive_max_size_witness :
  decompress (scripted gzip_script) gzip_input 0 false initial_world
  = decompress (scripted gzip_script) gzip_input (-1) false initial_world.
Proof.
  assert (H1 : 0 <= 0) by lia.
  assert (H2 : -1 <= 0) by lia.
  destruct (@decompress_nonpositive_max_size (scripted gzip_script) gzip_input 0 (-1)
              false initial_world H1 H2) as [H _].
  exact H.
Defined.

(** ** [decrypt_prx_file] *)

(** On a regular file that the allocator has room for, the call is
    [decrypt_prx] on the file's bytes. *)
Lemma decrypt_prx_file_regular L fs heap filename sid verbose w content :
  fs filename = Some (regular_file content) ->
  heap (Z.of_nat (length content)) = true ->
  decrypt_prx_file L fs heap filename sid verbose w =
  (fst (decrypt_prx L content sid verbose w),
   inr (snd (decrypt_prx L content sid verbose w))).
Proof.
  intros Hf Hheap. unfold decrypt_prx_file. rewrite Hf.
  unfold regular_file. cbn [f_tell f_content]. cbv zeta.
  destruct (Z.ltb_spec (Z.of_nat (length content)) 0); [lia |].
  rewrite Hheap. cbn [negb].
  rewrite Nat2Z.id, firstn_all, Z.eqb_refl. reflexivity.
Qed.

(** An exception of [decrypt_prx_file] itself leaves the state as it was. *)
Lemma decrypt_prx_file_own_error L fs heap filename sid verbose w e :
  snd (decrypt_prx_file L fs heap filename sid verbose w) = inl e ->
  fst (decrypt_prx_file L fs heap filename sid verbose w) = w.
Proof.
  unfold decrypt_prx_file.
  destruct (fs filename) as [f |]; [| reflexivity].
  cbv zeta.
  destruct (f_tell f <? 0); [reflexivity |].
  destruct (negb (heap (f_tell f))); [reflexivity |].
  destruct (negb (Z.of_nat (length (firstn (Z.to_nat (f_tell f)) (f_content f)))
                  =? f_tell f)); [reflexivity |].
  discriminate.
Qed.

(** The state [decrypt_prx_file] leaves: the one it found, or the one
    [decrypt_prx] leaves on the bytes read. *)
Lemma decrypt_prx_file_state L fs heap filename sid verbose w :
  fst (decrypt_prx_file L fs heap filename sid verbose w) = w \/
  exists data,
    fst (decrypt_prx_file L fs heap filename sid verbose w)
    = fst (decrypt_prx L data sid verbose w).
Proof.
  unfold decrypt_prx_file.
  destruct (fs filename) as [f |]; [| now left].
  cbv zeta.
  destruct (f_tell f <? 0); [now left |].
  destruct (negb (heap (f_tell f))); [now left |].
  destruct (negb (Z.of_nat (length (firstn (Z.to_nat (f_tell f)) (f_content f)))
                  =? f_tell f)); [now left |].
  right. eexists. reflexivity.
Qed.

(** X14.  [decrypt_prx_file] on a regular file that the allocator has room
    for is [decrypt_prx] on the file's bytes, in result and in state, so a
    file shorter than the header, the empty file included, is reported as
    "too small" and not as a read error.  A size the allocator refuses ends
    the call at line 112, before anything is read; a file that delivers
    fewer bytes than [ftell] announced is "Could not read entire file".
    Whenever the function throws an exception of its own, the state is as it
    was: [kirk_init] has not run.  The function goes through the guard of
    [decrypt_prx]: a call of [decrypt_prx_file] followed by a call of
    [decrypt_prx] runs [kirk_init] once between them, none if it had run
    before, whether the file could be read or not. *)
Theorem decrypt_prx_file_behaviour L fs heap filename sid verbose w :
  (forall content, fs filename = Some (regular_file content) ->
     heap (Z.of_nat (length content)) = true ->
     decrypt_prx_file L fs heap filename sid verbose w =
     (fst (decrypt_prx L content sid verbose w),
      inr (snd (decrypt_prx L content sid verbose w)))) /\
  (forall content, fs filename = Some (regular_file content) ->
     heap (Z.of_nat (length content)) = true ->
     Z.of_nat (length content) < PSP_HEADER_SIZE ->
     decrypt_prx_file L fs heap filename sid verbose w =
     (after_kirk_prx w, inr (Thrown TooSmall))) /\
  (forall f, fs filename = Some f ->
     0 <= f_tell f -> heap (f_tell f) = false ->
     decrypt_prx_file L fs heap filename sid verbose w = (w, inl NoMemory)) /\
  (forall f, fs filename = Some f ->
     heap (f_tell f) = true ->
     Z.of_nat (length (f_content f)) < f_tell f ->
     decrypt_prx_file L fs heap filename sid verbose w = (w, inl ShortRead)) /\
  (forall e, snd (decrypt_prx_file L fs heap filename sid verbose w) = inl e ->
     fst (decrypt_prx_file L fs heap filename sid verbose w) = w) /\
  (forall data2 sid2 verbose2,
     kirk_loads (trace (fst (decrypt_prx L data2 sid2 verbose2
                  (fst (decrypt_prx_file L fs heap filename sid verbose w)))))
     = (kirk_loads (trace w) + if prx_kirk_initialized w then 0 else 1)%nat).
Proof.
  repeat apply conj.
  - intros content. apply decrypt_prx_file_regular.
  - intros content Hf Hheap Hshort.
    rewrite (@decrypt_prx_file_regular L fs heap filename sid verbose w content Hf Hheap).
    rewrite decrypt_prx_too_small; [reflexivity |].
    pose proof (input_size_le content). lia.
  - intros f Hf Htell Hheap. unfold decrypt_prx_file. rewrite Hf. cbv zeta.
    destruct (Z.ltb_spec (f_tell f) 0); [lia |].
    rewrite Hheap. reflexivity.
  - intros f Hf Hheap Hless. unfold decrypt_prx_file. rewrite Hf. cbv zeta.
    destruct (Z.ltb_spec (f_tell f) 0); [lia |].
    rewrite Hheap. cbn [negb].
    destruct (Z.eqb_spec (Z.of_nat (length (firstn (Z.to_nat (f_tell f)) (f_content f))))
                         (f_tell f)) as [E |]; [| reflexivity].
    rewrite length_firstn in E. lia.
  - intros e. apply decrypt_prx_file_own_error.
  - intros data2 sid2 verbose2.
    destruct (decrypt_prx_file_state L fs heap filename sid verbose w)
      as [Hsame | [data Hrun]].
    + rewrite Hsame. apply decrypt_prx_guards.
    + rewrite Hrun.
      destruct (decrypt_prx_guards L data sid verbose w) as (G1 & _ & G3).
      destruct (decrypt_prx_guards L data2 sid2 verbose2
                  (fst (decrypt_prx L data sid verbose w))) as (_ & _ & K3).
      rewrite K3, G1, G3. lia.
Qed.

(** A run of X14: the one file of [one_file_fs], four bytes long. *)
Lemma decrypt_prx_file_behaviour_witness :
  decrypt_prx_file (scripted gzip_script) one_file_fs roomy_heap "a.prx" None false
                   initial_world
  = (after_kirk_prx initial_world, inr (Thrown TooSmall)).
Proof.
  destruct (@decrypt_prx_file_behaviour (scripted gzip_script) one_file_fs roomy_heap
              "a.prx" None false initial_world) as (_ & Hshort & _).
  apply (Hshort gzip_input); reflexivity.
Defined.

(** ** When [decrypt_prx] calls the decoder *)

Lemma decoder_calls_app t1 t2 :
  decoder_calls (t1 ++ t2) = (decoder_calls t1 + decoder_calls t2)%nat.
Proof. unfold decoder_calls. now rewrite filter_app, length_app. Qed.

Lemma decoder_calls_record_events evs w :
  decoder_calls (trace (record_events evs w))
  = (decoder_calls (trace w) + decoder_calls evs)%nat.
Proof. unfold record_events. cbn [trace]. apply decoder_calls_app. Qed.

Lemma decoder_calls_after_kirk_prx w :
  decoder_calls (trace (after_kirk_prx w)) = decoder_calls (trace w).
Proof.
  unfold after_kirk_prx. destruct (prx_kirk_initialized w); [reflexivity |].
  cbn [set_prx_kirk_initialized trace]. rewrite decoder_calls_record_events.
  cbn. lia.
Qed.

(** X15.  Once the checks have passed and the decryption has stayed within
    its buffer, [decrypt_prx] calls the decoder exactly when the decryption
    reported four bytes or more and the decrypted buffer sniffs as
    compressed, and then exactly once; the sniff it goes by is the one of
    the decrypted buffer, not the [is_compressed] that [get_prx_info] reads
    off the input. *)
Theorem decrypt_prx_decoder_calls L data sid verbose w
    (Hsize : PSP_HEADER_SIZE <= input_size_of data)
    (Hid : secure_id_ok sid)
    (Hfit : (length (prx_written L data sid verbose)
             <= length (zeros (prx_capacity L data)))%nat) :
  decoder_calls (trace (fst (decrypt_prx L data sid verbose w)))
  = (decoder_calls (trace w)
     + if ((4 <=? prx_output_size L data sid verbose)
           && negb (pspIsCompressed L (prx_output_buffer L data sid verbose) =? 0))%Z
       then 1 else 0)%nat.
Proof.
  rewrite decrypt_prx_run by assumption. cbv zeta.
  destruct (Z.ltb_spec (prx_output_size L data sid verbose) 0) as [Hneg | Hpos].
  { destruct (Z.leb_spec 4 (prx_output_size L data sid verbose)); [lia |].
    cbn [fst andb]. rewrite decoder_calls_record_events, decoder_calls_after_kirk_prx.
    cbn. lia. }
  destruct (4 <=? prx_output_size L data sid verbose); cbn [andb].
  2:{ rewrite py_bytes_world, decoder_calls_record_events, decoder_calls_after_kirk_prx.
      cbn. lia. }
  destruct (pspIsCompressed L (prx_output_buffer L data sid verbose) =? 0); cbn [negb].
  { rewrite py_bytes_world, !decoder_calls_record_events, decoder_calls_after_kirk_prx.
    cbn. lia. }
  unfold_run.
  split_run; cbn [fst];
    rewrite ?decoder_calls_record_events, ?decoder_calls_after_kirk_prx;
    cbn [decoder_calls filter is_decompress_call length]; lia.
Qed.

(** A run of X15: the input carries no magic, the decrypted buffer does,
    and the decoder is called once. *)
Lemma decrypt_prx_decoder_calls_witness :
  is_compressed (info_of (scripted compressed_prx_script) blank_header) = false /\
  decoder_calls (trace (fst (decrypt_prx (scripted compressed_prx_script) blank_header
                                         None false initial_world)))
  = 1%nat.
Proof.
  split; [reflexivity |].
  assert (Hsize : PSP_HEADER_SIZE <= input_size_of blank_header)
    by (vm_compute; discriminate).
  assert (Hfit : (length (prx_written (scripted compressed_prx_script) blank_header
                                      None false)
                  <= length (zeros (prx_capacity (scripted compressed_prx_script)
                                                 blank_header)))%nat)
    by (vm_compute; lia).
  rewrite (@decrypt_prx_decoder_calls (scripted compressed_prx_script) blank_header
             None false initial_world Hsize I Hfit).
  reflexivity.
Defined.

(** ** Inputs shorter than a header *)

Lemma short_input_size data :
  Z.of_nat (length data) < PSP_HEADER_SIZE ->
  input_size_of data = Z.of_nat (length data).
Proof.
  intros H. unfold input_size_of. apply to_u32_small.
  unfold PSP_HEADER_SIZE, two32 in *. lia.
Qed.

Lemma zeros_of_length (data : bytes) :
  length (zeros (Z.of_nat (length data))) = length data.
Proof. pose proof (@zeros_length (Z.of_nat (length data))). lia. Qed.

(** C2 as stated fails on the four bytes of [gzip_input], far shorter than
    a header: [decompress] returns the decoder's output. *)
Lemma decompress_accepts_short_input :
  Z.of_nat (length gzip_input) < PSP_HEADER_SIZE /\
  decompress (scripted gzip_script) gzip_input (-1) false initial_world =
  (record_events [Call CIsCompressed; AllocOutput 40; Call (CDecompress 40)]
                 initial_world,
   Returned [x41; x42; x43]).
Proof. split; reflexivity. Qed.

(** C2, as the code has it.  On an input shorter than the header size,
    [decrypt_prx] and [get_prx_info] throw "too small" before any routine
    of the library is given the input, so that nothing of it, or beyond it,
    is read ([decrypt_prx] having gone through its initialisation guard).
    The three IPL stages make no such check and never throw "too small":
    each runs its routine on the input with the input's exact length, throws
    no exception but its own, and throws it whenever the routine, having
    written no more bytes than the input has, answers zero or less.
    [decompress], on an input of four bytes or more, never throws "too
    small" either: it sniffs exactly the bytes of the input and throws "not
    compressed" when the sniff rejects them; otherwise it runs the decoder
    on them with their exact length and throws "Decompression failed", and
    no other exception, when the decoder, having written within its
    capacity, answers a negative value. *)
Theorem short_input_handling L data
    (Hshort : Z.of_nat (length data) < PSP_HEADER_SIZE) :
  (forall sid verbose w,
     decrypt_prx L data sid verbose w = (after_kirk_prx w, Thrown TooSmall)) /\
  (forall w, get_prx_info L data w = (w, Thrown TooSmall)) /\
  (forall verbose w,
     snd (decrypt_ipl1 L data verbose w) <> Thrown TooSmall /\
     (forall e, snd (decrypt_ipl1 L data verbose w) = Thrown e -> e = Ipl1Failed) /\
     (to_int (fst (fst (pspDecryptIPL1 L data (Z.of_nat (length data))))) <= 0 ->
      (length (snd (fst (pspDecryptIPL1 L data (Z.of_nat (length data)))))
       <= length data)%nat ->
      snd (decrypt_ipl1 L data verbose w) = Thrown Ipl1Failed)) /\
  (forall w,
     snd (linearize_ipl2 L data w) <> Thrown TooSmall /\
     (forall e, snd (linearize_ipl2 L data w) = Thrown e -> e = Ipl2Failed) /\
     (to_int (fst (fst (pspLinearizeIPL2 L data (Z.of_nat (length data))))) <= 0 ->
      (length (snd (fst (pspLinearizeIPL2 L data (Z.of_nat (length data)))))
       <= length data)%nat ->
      snd (linearize_ipl2 L data w) = Thrown Ipl2Failed)) /\
  (forall w,
     snd (decrypt_ipl3 L data w) <> Thrown TooSmall /\
     (forall e, snd (decrypt_ipl3 L data w) = Thrown e -> e = Ipl3Failed) /\
     (to_int (fst (pspDecryptIPL3 L data (Z.of_nat (length data)))) <= 0 ->
      (length (snd (pspDecryptIPL3 L data (Z.of_nat (length data))))
       <= length data)%nat ->
      snd (decrypt_ipl3 L data w) = Thrown Ipl3Failed)) /\
  (forall max_size verbose w,
     4 <= Z.of_nat (length data) ->
     snd (decompress L data max_size verbose w) <> Thrown TooSmall /\
     (forall e, snd (decompress L data max_size verbose w) = Thrown e ->
                e = NotCompressed \/ exists log, e = DecompressionFailed log) /\
     (pspIsCompressed L data = 0 ->
      snd (decompress L data max_size verbose w) = Thrown NotCompressed) /\
     (pspIsCompressed L data <> 0 ->
      Z.of_nat (length (dec_written
        (pspDecompress L data (Z.of_nat (length data))
           (decompress_capacity max_size (Z.of_nat (length data))))))
      <= decompress_capacity max_size (Z.of_nat (length data)) ->
      to_int (dec_ret
        (pspDecompress L data (Z.of_nat (length data))
           (decompress_capacity max_size (Z.of_nat (length data))))) < 0 ->
      snd (decompress L data max_size verbose w)
      = Thrown (DecompressionFailed (dec_log
          (pspDecompress L data (Z.of_nat (length data))
             (decompress_capacity max_size (Z.of_nat (length data)))))))).
Proof.
  pose proof (short_input_size data Hshort) as Hsz.
  assert (Hsmall : input_size_of data < PSP_HEADER_SIZE) by lia.
  assert (Hin : decompress_input data = data).
  { apply decompress_input_small. unfold PSP_HEADER_SIZE, two32 in *. lia. }
  pose proof (zeros_of_length data) as Hz.
  split; [| split; [| split; [| split; [| split]]]].
  - intros sid verbose w. now apply decrypt_prx_too_small.
  - intros w. now apply get_prx_info_too_small.
  - intros verbose w. split; [| split].
    + intros H. apply decrypt_ipl1_thrown in H. destruct H as [H _]. discriminate.
    + intros e H. apply decrypt_ipl1_thrown in H. tauto.
    + intros Hle Hfit.
      rewrite decrypt_ipl1_failure_run; [reflexivity | |]; rewrite Hsz, ?Hz; assumption.
  - intros w. split; [| split].
    + intros H. apply linearize_ipl2_thrown in H. destruct H as [H _]. discriminate.
    + intros e H. apply linearize_ipl2_thrown in H. tauto.
    + intros Hle Hfit.
      rewrite linearize_ipl2_failure_run; [reflexivity | |]; rewrite Hsz, ?Hz; assumption.
  - intros w. split; [| split].
    + intros H. apply decrypt_ipl3_thrown in H. destruct H as [H _]. discriminate.
    + intros e H. apply decrypt_ipl3_thrown in H. tauto.
    + intros Hle Hfit.
      rewrite decrypt_ipl3_failure_run; [reflexivity | |]; rewrite Hsz, ?Hz; assumption.
  - intros max_size verbose w Hfour. split; [| split; [| split]].
    + intros H. apply decompress_thrown in H.
      destruct H as [[H _] | [H _]]; discriminate.
    + intros e H. apply decompress_thrown in H.
      destruct H as [[-> _] | [-> _]]; [now left | right; eexists; reflexivity].
    + intros Hzero.
      unfold decompress. run_m. fold (input_size_of data). fold (decompress_input data).
      rewrite Hin, Hzero. reflexivity.
    + intros Hsniff Hfit Hneg.
      rewrite decompress_run; rewrite ?Hin, ?Hsz.
      * cbv zeta. apply Z.ltb_lt in Hneg. rewrite Hneg. reflexivity.
      * exact Hsniff.
      * split; [exact Hfit | left; exact Hneg].
Qed.

(** A run of C2: the four bytes of [gzip_input] given to [decrypt_prx]. *)
Lemma short_input_handling_witness :
  decrypt_prx (scripted gzip_script) gzip_input None false initial_world
  = (after_kirk_prx initial_world, Thrown TooSmall).
Proof.
  assert (Hshort : Z.of_nat (length gzip_input) < PSP_HEADER_SIZE) by reflexivity.
  destruct (@short_input_handling (scripted gzip_script) gzip_input Hshort) as [H _].
  apply H.
Defined.
